(** * Statespace data tools of pymc-extras: data ingestion and validation

    A shallow embedding of [pymc_extras/statespace/utils/data_tools.py].
    Python exceptions and the [warnings] stream are made explicit: a
    computation returns the warnings it emitted, in order, together with
    either the exception it raised or its value.  Float64 cells are Rocq's
    primitive binary64 floats, so NaN, the infinities and IEEE equality are
    the machine's. *)

From Stdlib Require Import PrimFloat ZArith.
From Stdlib Require FloatAxioms.
From stdpp Require Import gmap strings list.

Open Scope Z_scope.

(** ** Exceptions, warnings, and computations that may emit either *)

(** A message is kept as the pieces of the f-string that builds it: literal
    text, formatted integers and floats, and a [", ".join] over a set (whose
    iteration order Python leaves open). *)
Inductive fragment : Type :=
| Lit (s : string)
| FmtInt (z : Z)
| FmtFloat (x : float)
| FmtJoin (sep : string) (items : gset string).

Definition message : Type := list fragment.

(** The exceptions the data tools raise or let through: Python's own, and
    the [ShapeError] of PyMC. *)
Inductive exn : Type :=
| ValueError (msg : message)
| IndexError (msg : message)
| TypeError (msg : message)
| NotImplementedError (msg : message)
| ShapeError (msg : message).

Inductive warning : Type :=
| UserWarning (msg : message)
| ImputationWarning (msg : message).

(** [py A]: the warnings emitted so far, and the exception raised or the
    value returned. *)
Definition py (A : Type) : Type := (list warning * (exn + A))%type.

Definition py_ret {A} (a : A) : py A := ([], inr a).

Definition py_raise {A} (e : exn) : py A := ([], inl e).

Definition warnings_warn (w : warning) : py unit := ([w], inr tt).

Definition py_bind {A B} (m : py A) (k : A → py B) : py B :=
  match m with
  | (ws, inl e) => (ws, inl e)
  | (ws, inr a) => let '(ws', r) := k a in (ws ++ ws', r)
  end.

Notation "x <~ m ; k" := (py_bind m (λ x, k))
  (at level 20, m at level 100, k at level 200, only parsing).
Notation "m ;;; k" := (py_bind m (λ _, k))
  (at level 100, k at level 200, right associativity).

(** [raise_if c e]: the statement [if c: raise e]. *)
Definition raise_if (c : bool) (e : exn) : py unit :=
  if c then py_raise e else py_ret tt.

(** [warn_if c w]: the statement [if c: warnings.warn(w)]. *)
Definition warn_if (c : bool) (w : warning) : py unit :=
  if c then warnings_warn w else py_ret tt.

(** The outcome of a computation, warnings dropped. *)
Definition outcome {A} (m : py A) : exn + A := m.2.

Definition raises {A} (m : py A) (e : exn) : Prop := outcome m = inl e.

Definition returns {A} (m : py A) (a : A) : Prop := outcome m = inr a.

(** ** numpy arrays: a shape and a row-major buffer *)

Record ndarray (A : Type) : Type := mk_ndarray {
  shape : list nat;
  buffer : list A
}.
Arguments mk_ndarray {A} _ _.
Arguments shape {A} _.
Arguments buffer {A} _.

Definition ndim {A} (a : ndarray A) : nat := length (shape a).

Definition nd_map {A B} (f : A → B) (a : ndarray A) : ndarray B :=
  mk_ndarray (shape a) (f <$> buffer a).

(** [np.any] on a boolean array. *)
Definition np_any (a : ndarray bool) : bool := existsb id (buffer a).

(** [np.isfinite]: neither NaN nor an infinity. *)
Definition np_isfinite (x : float) : bool := PrimFloat.is_finite x.

(** [a == v] against a scalar: IEEE equality, cell by cell. *)
Definition nd_eq_scalar (a : ndarray float) (v : float) : ndarray bool :=
  nd_map (λ x, PrimFloat.eqb x v) a.

(** [np.ma.MaskedArray]: the data and the mask, of one shape. *)
Record MaskedArray : Type := mk_masked {
  ma_data : ndarray float;
  ma_mask : ndarray bool
}.

(** [np.ma.masked_invalid]: masks the cells that are NaN or infinite. *)
Definition masked_invalid (a : ndarray float) : MaskedArray :=
  mk_masked a (nd_map (λ x, negb (np_isfinite x)) a).

(** [MaskedArray.filled]: a copy of the data with the masked cells set to
    the fill value. *)
Definition ma_filled (m : MaskedArray) (fill_value : float) : ndarray float :=
  mk_ndarray (shape (ma_data m))
    (zip_with (λ (masked : bool) x, if masked then fill_value else x)
       (buffer (ma_mask m)) (buffer (ma_data m))).

(** ** The missing-value masker *)

Definition collision_message (missing_fill_value : float) : message :=
  [Lit "Provided data contains the value "; FmtFloat missing_fill_value;
   Lit ", which is used as a missing value marker. ";
   Lit "Please manually change the missing_fill_value to avoid this collision."].

Definition impute_message : message :=
  [Lit "Provided data contains missing values and";
   Lit " will be automatically imputed as hidden states";
   Lit " during Kalman filtering."].

Section Masker.

(** [MISSING_FILL] of [statespace/utils/constants.py]. *)
Variable MISSING_FILL : float.

Definition mask_missing_values_in_data
    (values : ndarray float) (missing_fill_value : option float)
  : py (ndarray float * ndarray bool) :=
  let missing_fill_value := default MISSING_FILL missing_fill_value in
  let masked_values := masked_invalid values in
  let filled_values := ma_filled masked_values missing_fill_value in
  let nan_mask := ma_mask masked_values in
  (if np_any nan_mask then
     raise_if (np_any (nd_eq_scalar values missing_fill_value))
       (ValueError (collision_message missing_fill_value)) ;;;
     warnings_warn (ImputationWarning impute_message)
   else py_ret tt) ;;;
  py_ret (filled_values, nan_mask).

End Masker.

(** ** The data shape validator *)

Definition not_2d_message : message := [Lit "Data must be a 2d matrix"].

Definition column_count_message (n_obs : Z) (found : nat) : message :=
  [Lit "Shape of data does not match model output. Expected "; FmtInt n_obs;
   Lit " columns, found "; FmtInt (Z.of_nat found); Lit "."].

Definition missing_cols_message (missing_cols : gset string) : message :=
  [Lit "Columns of DataFrame provided as data do not match state names. The following states were";
   Lit "not found: "; FmtJoin ", " missing_cols;
   Lit ". This may result in unexpected results in complex";
   Lit "statespace models"].

(** [data_shape[-1]]; an empty tuple has no last entry. *)
Definition shape_last (data_shape : list nat) : py nat :=
  match last data_shape with
  | Some c => py_ret c
  | None => py_raise (IndexError [Lit "tuple index out of range"])
  end.

(** [data_shape[0]]. *)
Definition shape_first (data_shape : list nat) : py nat :=
  match data_shape with
  | r :: _ => py_ret r
  | [] => py_raise (IndexError [Lit "tuple index out of range"])
  end.

Definition _validate_data_shape
    (data_shape : list nat) (n_obs : Z) (obs_coords : option (list string))
    (check_col_names : bool) (col_names : option (list string)) : py unit :=
  let col_names := default [] col_names in
  raise_if (bool_decide (length data_shape ≠ 2%nat)) (ValueError not_2d_message) ;;;
  c <~ shape_last data_shape;
  raise_if (bool_decide (Z.of_nat c ≠ n_obs))
    (ValueError (column_count_message n_obs c)) ;;;
  if check_col_names then
    match obs_coords with
    | None => py_raise (TypeError [Lit "'NoneType' object is not iterable"])
    | Some obs_coords =>
        let missing_cols : gset string :=
          list_to_set obs_coords ∖ list_to_set col_names in
        raise_if (bool_decide (0 < size missing_cols)%nat)
          (ValueError (missing_cols_message missing_cols))
    end
  else py_ret tt.

(** The two errors of the shape checks proper (rank and column count). *)
Definition shape_error (e : exn) : Prop :=
  e = ValueError not_2d_message
  ∨ ∃ n_obs found, e = ValueError (column_count_message n_obs found).

(** ** Preprocessing of numpy arrays and pandas tables *)

Definition NO_TIME_INDEX_WARNING : message :=
  [Lit "No time index found on the supplied data. A simple range index will be automatically ";
   Lit "generated."].

Definition NO_FREQ_INFO_WARNING : message :=
  [Lit "No frequency was specific on the data's DateTimeIndex."].

(** The index handed back with the values: an integer array from
    [np.arange], or the table's own [DatetimeIndex] (stamps in nanoseconds,
    with the frequency now recorded on it). *)
Inductive time_index : Type :=
| ArangeIndex (labels : list Z)
| DatetimeLabels (stamps : list Z) (freq : option string).

(** [np.arange(n, dtype="int")]. *)
Definition np_arange (n : nat) : list Z := Z.of_nat <$> seq 0 n.

Definition preprocess_numpy_data
    (data : ndarray float) (n_obs : Z) (obs_coords : option (list string))
  : py (ndarray float * time_index) :=
  _validate_data_shape (shape data) n_obs obs_coords false None ;;;
  warn_if (bool_decide (obs_coords ≠ None)) (UserWarning NO_TIME_INDEX_WARNING) ;;;
  n <~ shape_first (shape data);
  let index := ArangeIndex (np_arange n) in
  py_ret (data, index).

(** The row index of a pandas table.  [IntIndex] is a plain [Index] of
    dtype int64, the dtype pandas gives integer labels, its labels lying
    between [int64_min] and [int64_max]; [FloatIndex] and [ObjectIndex] are
    plain indexes of a dtype that is not an integer one. *)
Inductive pd_index : Type :=
| DatetimeIndex (stamps : list Z) (freq : option string)
| RangeIndex (start stop step : Z)
| MultiIndex (tuples : list (list string))
| IntIndex (labels : list Z)
| FloatIndex (labels : list float)
| ObjectIndex (labels : list string).

(** [len(range(start, stop, step))]. *)
Definition range_len (start stop step : Z) : nat :=
  if bool_decide (0 < step ∧ start < stop) then
    Z.to_nat ((stop - start - 1) / step + 1)
  else if bool_decide (step < 0 ∧ stop < start) then
    Z.to_nat ((start - stop - 1) / (- step) + 1)
  else 0%nat.

Definition index_len (i : pd_index) : nat :=
  match i with
  | DatetimeIndex stamps _ => length stamps
  | RangeIndex start stop step => range_len start stop step
  | MultiIndex tuples => length tuples
  | IntIndex labels => length labels
  | FloatIndex labels => length labels
  | ObjectIndex labels => length labels
  end.

Record DataFrame : Type := mk_DataFrame {
  columns : list string;
  index : pd_index;
  cells : list float
}.

Inductive pandas_data : Type :=
| Series (name : option string) (idx : pd_index) (vals : list float)
| Frame (df : DataFrame).

(** [Series.to_frame], after the unnamed series was named ["data"]. *)
Definition to_frame (name : option string) (idx : pd_index) (vals : list float)
  : DataFrame :=
  mk_DataFrame [default "data" name] idx vals.

(** The first lines of [preprocess_pandas_data]: a series is promoted to a
    table of one column. *)
Definition as_frame (data : pandas_data) : DataFrame :=
  match data with
  | Series name idx vals => to_frame name idx vals
  | Frame df => df
  end.

(** [data.shape] of a table: the lengths of its two axes. *)
Definition df_shape (d : DataFrame) : list nat :=
  [index_len (index d); length (columns d)].

(** [data.values]. *)
Definition df_values (d : DataFrame) : ndarray float :=
  mk_ndarray (df_shape d) (cells d).

(** The range of an int64, and the value an int64 operation leaves when
    its exact result is [z]: the result modulo 2^64, taken between
    [int64_min] and [int64_max]. *)
Definition int64_min : Z := - 2 ^ 63.

Definition int64_max : Z := 2 ^ 63 - 1.

Definition is_int64 (z : Z) : Prop := int64_min ≤ z ≤ int64_max.

#[global] Instance is_int64_dec z : Decision (is_int64 z).
Proof. unfold is_int64. apply _. Defined.

Definition int64_wrap (z : Z) : Z := (z + 2 ^ 63) mod 2 ^ 64 - 2 ^ 63.

(** [Series.diff] on int64 labels: each label minus the one before it, the
    first entry missing.  pandas subtracts the labels as int64, so with
    wrap-around, and holds the differences as floats; a float converted from
    an int64 equals 1 exactly when the integer is 1, so the differences are
    kept as integers here. *)
Definition series_diff (labels : list Z) : list (option Z) :=
  match labels with
  | [] => []
  | _ :: rest =>
      None :: zip_with (λ prev cur, Some (int64_wrap (cur - prev))) labels rest
  end.

(** [Series.dropna]. *)
Definition dropna (s : list (option Z)) : list Z := omap id s.

Definition not_integer_index_message : message :=
  [Lit "Provided index is not an integer index."].

Definition not_monotonic_message : message :=
  [Lit "Provided index is not monotonic increasing."].

Definition multiindex_message : message :=
  [Lit "MultiIndex panel data is not currently supported."].

(** The [else] branch on a plain [Index] whose integer labels are
    [labels], after the dtype test. *)
Definition check_consecutive (labels : list Z) : py unit :=
  let index_diff := dropna (series_diff labels) in
  raise_if (negb (forallb (λ d, bool_decide (d = 1)) index_diff))
    (IndexError not_monotonic_message).

Section Pandas.

(** [DatetimeIndex.inferred_freq] of pandas. *)
Variable inferred_freq : list Z → option string.

Definition preprocess_pandas_data
    (data : pandas_data) (n_obs : Z) (obs_coords : option (list string))
    (check_column_names : bool) : py (ndarray float * time_index) :=
  let data := as_frame data in
  let col_names := columns data in
  _validate_data_shape (df_shape data) n_obs obs_coords check_column_names
    (Some col_names) ;;;
  let no_time_index :=
    warn_if (bool_decide (obs_coords ≠ None)) (UserWarning NO_TIME_INDEX_WARNING) in
  match index data with
  | DatetimeIndex stamps freq =>
      freq <~ match freq with
              | None =>
                  warnings_warn (UserWarning NO_FREQ_INFO_WARNING) ;;;
                  py_ret (inferred_freq stamps)
              | Some f => py_ret (Some f)
              end;
      py_ret (df_values data, DatetimeLabels stamps freq)
  | RangeIndex _ _ _ =>
      no_time_index ;;;
      preprocess_numpy_data (df_values data) n_obs obs_coords
  | MultiIndex _ =>
      no_time_index ;;;
      py_raise (NotImplementedError multiindex_message)
  | IntIndex labels =>
      no_time_index ;;;
      check_consecutive labels ;;;
      preprocess_numpy_data (df_values data) n_obs obs_coords
  | FloatIndex _ | ObjectIndex _ =>
      no_time_index ;;;
      py_raise (IndexError not_integer_index_message)
  end.

End Pandas.

(** ** Registration with the active model *)

(** A coordinate label: an integer, or a timestamp in nanoseconds. *)
Inductive label : Type :=
| IntLabel (z : Z)
| Timestamp (ns : Z).

#[global] Instance label_eq_dec : EqDecision label.
Proof. solve_decision. Defined.

(** [tuple(index)]. *)
Definition index_labels (i : time_index) : list label :=
  match i with
  | ArangeIndex labels => IntLabel <$> labels
  | DatetimeLabels stamps _ => Timestamp <$> stamps
  end.

(** The part of a PyMC model the data tools touch: the coordinates, each
    bound to a label sequence or to [None], and the dimension lengths. *)
Record Model : Type := mk_Model {
  coords : gmap string (option (list label));
  dim_lengths : gmap string nat
}.

(** [np.array_equal] on two label sequences: same length, and equal
    entries throughout. *)
Definition np_array_equal (a b : list label) : bool :=
  bool_decide (length a = length b)
  && forallb (λ p : label * label, bool_decide (p.1 = p.2)) (zip a b).

(** The dimension names PyMC keeps for [InferenceData]. *)
Definition reserved_dim_names : list string := ["draw"; "chain"; "__sample__"].

Definition reserved_dim_message : message :=
  [Lit "Dimensions can not be named `draw`, `chain` or `__sample__`, as those are reserved for use in `InferenceData`."].

Definition duplicate_coord_message (name : string) : message :=
  [Lit "Duplicate and incompatible coordinate: "; Lit name; Lit "."].

(** [Model.add_coord(name, values)] of PyMC: refuses a reserved name and a
    name already bound to other values, then records the values and their
    number under the name. *)
Definition add_coord (name : string) (values : list label) (m : Model)
  : exn + Model :=
  if bool_decide (name ∈ reserved_dim_names) then
    inl (ValueError reserved_dim_message)
  else
    let bound :=
      match coords m !! name with
      | None => true
      | Some None => false
      | Some (Some found) => np_array_equal values found
      end in
    if bound then
      inr (mk_Model (<[name := Some values]> (coords m))
             (<[name := length values]> (dim_lengths m)))
    else inl (ValueError (duplicate_coord_message name)).

Definition time_index_conflict_message : message :=
  [Lit "Provided data has a different time index than the model. Please ensure that the time values ";
   Lit "set on coords matches that of the exogenous data."].

(** Lines 130 to 140: the time coordinate is created, adopted or checked. *)
Definition bind_time_coord (time_dim : string) (index : list label)
    (pymc_mod : Model) : exn + Model :=
  match coords pymc_mod !! time_dim with
  | None => add_coord time_dim index pymc_mod
  | Some found_time =>
      match found_time with
      | None =>
          inr (mk_Model (<[time_dim := Some index]> (coords pymc_mod))
                 (dim_lengths pymc_mod))
      | Some found_time =>
          if negb (np_array_equal found_time index) then
            inl (ValueError time_index_conflict_message)
          else inr pymc_mod
      end
  end.

(** The shape hint [(None, 1)] or [(None, values.shape[-1])]. *)
Definition data_shape_hint (values : ndarray float) : exn + list (option nat) :=
  match last (shape values) with
  | None => inl (IndexError [Lit "tuple index out of range"])
  | Some c =>
      if bool_decide (c = 1%nat) || bool_decide (ndim values = 1%nat)
      then inr [None; Some 1%nat]
      else inr [None; Some c]
  end.

Section Registration.

(** [TIME_DIM] and [OBS_STATE_DIM] of [statespace/utils/constants.py]. *)
Variable TIME_DIM OBS_STATE_DIM : string.

(** [pm.Data(name, values, dims=..., shape=...)] of PyMC, run in a model:
    the declared data variable and the model after the declaration. *)
Variable DataVar : Type.
Variable pm_Data :
  string → ndarray float → list string → list (option nat) → Model →
  exn + (DataVar * Model).

(** Lines 142 to 151: the data is declared under the name ["data"]. *)
Definition declare_data (values : ndarray float) (data_dims : list string)
    (pymc_mod : Model) : exn + (DataVar * Model) :=
  match data_shape_hint values with
  | inl e => inl e
  | inr data_shape => pm_Data "data" values data_dims data_shape pymc_mod
  end.

(** [add_data_to_active_model], run in the model that
    [modelcontext(None)] finds. *)
Definition add_data_to_active_model
    (values : ndarray float) (index : list label)
    (data_dims : option (list string)) (pymc_mod : Model)
  : exn + (DataVar * Model) :=
  let data_dims := default [TIME_DIM; OBS_STATE_DIM] data_dims in
  match data_dims with
  | [] => inl (IndexError [Lit "list index out of range"])
  | time_dim :: _ =>
      match bind_time_coord time_dim index pymc_mod with
      | inl e => inl e
      | inr pymc_mod => declare_data values data_dims pymc_mod
      end
  end.

End Registration.

(** A stand-in for [pm.Data] on which the registration can be run: the
    declaration is handed back as a record and the model is left as it is. *)
Record data_decl : Type := mk_data_decl {
  decl_name : string;
  decl_values : ndarray float;
  decl_dims : list string;
  decl_shape : list (option nat)
}.

Definition record_data (name : string) (values : ndarray float)
    (dims : list string) (data_shape : list (option nat)) (m : Model)
  : exn + (data_decl * Model) :=
  inr (mk_data_decl name values dims data_shape, m).

(** [Model.add_coord(name, values=None, length=length)] of PyMC: a
    dimension of a known length and without labels.  A reserved name is
    refused, and so is a name already bound to labels; the name is then
    bound to [None] and the length recorded. *)
Definition add_dim (name : string) (length : nat) (m : Model) : exn + Model :=
  if bool_decide (name ∈ reserved_dim_names) then
    inl (ValueError reserved_dim_message)
  else
    match coords m !! name with
    | Some (Some _) => inl (ValueError (duplicate_coord_message name))
    | _ =>
        inr (mk_Model (<[name := None]> (coords m))
               (<[name := length]> (dim_lengths m)))
    end.

(** The loop of [pm.Data] over its [dims], each paired with the length of
    its axis: a dimension whose length the model does not know yet is added
    to the model. *)
Fixpoint register_dims (dims : list (string * nat)) (m : Model)
  : exn + Model :=
  match dims with
  | [] => inr m
  | (dname, length) :: dims =>
      if bool_decide (is_Some (dim_lengths m !! dname)) then
        register_dims dims m
      else
        match add_dim dname length m with
        | inl e => inl e
        | inr m => register_dims dims m
        end
  end.

Definition dims_length_message (actual expected : nat) : message :=
  [Lit "Length of `dims` must match the dimensions of the dataset.";
   Lit " (actual "; FmtInt (Z.of_nat actual); Lit " != expected ";
   FmtInt (Z.of_nat expected); Lit ")"].

(** A stand-in for [pm.Data] that keeps what [pm.Data] does to the
    dimensions of the model: as many [dims] as the data has axes are asked
    for, the dimensions are registered, and the declaration is handed back
    as a record. *)
Definition record_data_dims (name : string) (values : ndarray float)
    (dims : list string) (data_shape : list (option nat)) (m : Model)
  : exn + (data_decl * Model) :=
  if bool_decide (length dims = ndim values) then
    match register_dims (zip dims (shape values)) m with
    | inl e => inl e
    | inr m => inr (mk_data_decl name values dims data_shape, m)
    end
  else inl (ShapeError (dims_length_message (length dims) (ndim values))).

(** ** The round trip of the masker *)

(** The way back of the round trip: NaN put again at every cell where the
    mask is true, [np.where(mask, np.nan, filled)]. *)
Definition reinsert_nan (filled : ndarray float) (mask : ndarray bool)
  : ndarray float :=
  mk_ndarray (shape filled)
    (zip_with (λ (masked : bool) x, if masked then nan else x)
       (buffer mask) (buffer filled)).

(** A cell is invalid when it is NaN or an infinity. *)
Definition invalid (x : float) : bool := is_nan x || is_infinity x.

(** ** The tensor variant and the entry point of the data tools *)

(** A pytensor tensor variable, as far as the data tools look at it: its
    name, and what [data.shape.eval()] and [data.eval()] give (either may
    raise, for a graph whose inputs have no value). *)
Record TensorVariable : Type := mk_TensorVariable {
  tv_name : option string;
  tv_shape_eval : exn + list nat;
  tv_eval : exn + ndarray float
}.

(** A computation that emits no warning. *)
Definition py_lift {A} (r : exn + A) : py A := ([], r).

Definition preprocess_tensor_data
    (data : TensorVariable) (n_obs : Z) (obs_coords : option (list string))
  : py (ndarray float * time_index) :=
  data_shape <~ py_lift (tv_shape_eval data);
  _validate_data_shape data_shape n_obs obs_coords false None ;;;
  warn_if (bool_decide (obs_coords ≠ None)) (UserWarning NO_TIME_INDEX_WARNING) ;;;
  n <~ shape_first data_shape;
  let index := ArangeIndex (np_arange n) in
  values <~ py_lift (tv_eval data);
  py_ret (values, index).

(** What [register_data_with_pymc] may be handed: a tensor variable, a
    numpy array, a pandas series or table, or any other object. *)
Inductive data_container : Type :=
| TensorData (t : TensorVariable)
| ArrayData (a : ndarray float)
| PandasData (d : pandas_data)
| OtherData.

Definition unknown_container_message : message :=
  [Lit "Data should be one of pytensor tensor, numpy array, or pandas dataframe"].

(** What [register_data_with_pymc] hands back as the data: the variable
    declared in the model, or a shared variable outside of it. *)
Inductive registered (DataVar : Type) : Type :=
| ModelData (v : DataVar)
| SharedData (name : string) (value : ndarray float).
Arguments ModelData {DataVar} _.
Arguments SharedData {DataVar} _ _.

Section Register.

Variable MISSING_FILL : float.
Variable inferred_freq : list Z → option string.
Variable TIME_DIM OBS_STATE_DIM : string.
Variable DataVar : Type.
Variable pm_Data :
  string → ndarray float → list string → list (option nat) → Model →
  exn + (DataVar * Model).

(** [register_data_with_pymc], run in the model [pymc_mod]; the model
    comes back with the result. *)
Definition register_data_with_pymc
    (data : data_container) (n_obs : Z) (obs_coords : option (list string))
    (register_data : bool) (missing_fill_value : option float)
    (data_dims : option (list string)) (pymc_mod : Model)
  : py (registered DataVar * ndarray bool * Model) :=
  preprocessed <~
    match data with
    | TensorData t => preprocess_tensor_data t n_obs obs_coords
    | ArrayData a => preprocess_numpy_data a n_obs obs_coords
    | PandasData d => preprocess_pandas_data inferred_freq d n_obs obs_coords false
    | OtherData => py_raise (ValueError unknown_container_message)
    end;
  let '(values, index) := preprocessed in
  masked <~ mask_missing_values_in_data MISSING_FILL values missing_fill_value;
  let '(data, nan_mask) := masked in
  if register_data then
    match add_data_to_active_model TIME_DIM OBS_STATE_DIM DataVar pm_Data
            data (index_labels index) data_dims pymc_mod with
    | inl e => py_raise e
    | inr (data, pymc_mod) => py_ret (ModelData data, nan_mask, pymc_mod)
    end
  else py_ret (SharedData "data" data, nan_mask, pymc_mod).

End Register.

(** * Test utilities

    The pure parts of [tests/statespace/test_utilities.py]. *)

(** ** Rows of missing data *)

(** The number of cells in one entry along the first axis. *)
Definition row_size (data_shape : list nat) : nat :=
  foldr Nat.mul 1%nat (tail data_shape).

Definition out_of_bounds_message (i n : nat) : message :=
  [Lit "index "; FmtInt (Z.of_nat i);
   Lit " is out of bounds for axis 0 with size "; FmtInt (Z.of_nat n)].

(** [data[rows] = v], for an integer index array [rows]: every entry of
    [data] along the first axis whose position is in [rows] is set to [v];
    a position past the axis is an index error. *)
Definition set_rows (data : ndarray float) (rows : list nat) (v : float)
  : exn + ndarray float :=
  match shape data with
  | [] => inl (IndexError [Lit "too many indices for array"])
  | n :: _ =>
      match list_find (λ i, ¬ (i < n)%nat) rows with
      | Some (_, i) => inl (IndexError (out_of_bounds_message i n))
      | None =>
          inr (mk_ndarray (shape data)
                 (imap (λ k x,
                    if bool_decide (Nat.div k (row_size (shape data)) ∈ rows)
                    then v else x)
                    (buffer data)))
      end
  end.

Section AddMissingData.

(** [rng.choice(n, n_missing, replace=False)] at the generator's current
    state. *)
Variable rng_choice : nat → nat → exn + list nat.

Definition add_missing_data (data : ndarray float) (n_missing : nat)
  : exn + ndarray float :=
  match shape data with
  | [] => inl (IndexError [Lit "tuple index out of range"])
  | n :: _ =>
      match rng_choice n n_missing with
      | inl e => inl e
      | inr missing_idx => set_rows data missing_idx nan
      end
  end.

End AddMissingData.

(** ** Expected shapes of the filter outputs *)

(** [s.split(sep)] for a separator of one character: the pieces between
    the separators, of which there is always at least one. *)
Fixpoint str_split (sep : Ascii.ascii) (s : string) : list string :=
  match s with
  | EmptyString => [EmptyString]
  | String c rest =>
      if bool_decide (c = sep) then EmptyString :: str_split sep rest
      else
        match str_split sep rest with
        | [] => [String c EmptyString]
        | w :: ws => String c w :: ws
        end
  end.

(** [s.count(c)]. *)
Fixpoint str_count (c : Ascii.ascii) (s : string) : nat :=
  match s with
  | EmptyString => 0%nat
  | String c' rest =>
      if bool_decide (c' = c) then S (str_count c rest) else str_count c rest
  end.

Definition not_enough_values_message (got : nat) : message :=
  [Lit "not enough values to unpack (expected 2, got "; FmtInt (Z.of_nat got);
   Lit ")"].

Definition too_many_values_message : message :=
  [Lit "too many values to unpack (expected 2)"].

Definition underscore : Ascii.ascii := Ascii.ascii_of_nat 95.

(** [get_expected_shape]: the shape as a list, [None] when the function
    falls off its end. *)
Definition get_expected_shape (name : string) (p m r n : Z)
  : exn + option (list Z) :=
  if bool_decide (name = "log_likelihood") then inr (Some [])
  else if bool_decide (name = "ll_obs") then inr (Some [n])
  else
    match str_split underscore name with
    | [filter_type; variable] =>
        if bool_decide (variable = "states") then inr (Some [n; m])
        else if bool_decide (variable = "covs") then inr (Some [n; m; m])
        else inr None
    | [] => inl (ValueError (not_enough_values_message 0))
    | [_] => inl (ValueError (not_enough_values_message 1))
    | _ => inl (ValueError too_many_values_message)
    end.

(** ** Sorting the fitted parameters of a SARIMA model *)

(** A value of the parameter dictionary: a list of parameters (a vector
    after [np.array]) or a single parameter. *)
Inductive param_value : Type :=
| ParamList (l : list float)
| ParamScalar (x : float).

(** [param_dict[key].append(param)], on a key bound to a list. *)
Definition dict_append (key : string) (param : float)
    (param_dict : gmap string param_value) : gmap string param_value :=
  alter (λ v, match v with
              | ParamList l => ParamList (l ++ [param])
              | ParamScalar x => ParamScalar x
              end) key param_dict.

(** The body of the loop over the fitted names and values. *)
Definition sort_param (param_dict : gmap string param_value)
    (fitted : string * float) : gmap string param_value :=
  let '(name, param) := fitted in
  if String.prefix "ar.S" name then
    dict_append "seasonal_ar_params" param param_dict
  else if String.prefix "ma.S" name then
    dict_append "seasonal_ma_params" param param_dict
  else if String.prefix "ar." name then
    dict_append "ar_params" param param_dict
  else if String.prefix "ma." name then
    dict_append "ma_params" param param_dict
  else <["sigma_state" := ParamScalar param]> param_dict.

(** [isinstance(v, float) or len(v) > 0]. *)
Definition kept_param (v : param_value) : bool :=
  match v with
  | ParamScalar _ => true
  | ParamList l => bool_decide (0 < length l)%nat
  end.

Section StationaryParams.

(** The SARIMAX fit of statsmodels, as far as the function reads it:
    [res.param_names] and [res.params]. *)
Variable Data : Type.
Variable sarimax_fit :
  Data → Z * Z * Z → Z * Z * Z * Z → list string * list float.

Definition make_stationary_params (data : Data) (p d q P D Q S : Z)
  : gmap string param_value :=
  let res := sarimax_fit data (p, d, q) (P, D, Q, S) in
  let param_dict : gmap string param_value :=
    {[ "ar_params" := ParamList [];
       "ma_params" := ParamList [];
       "seasonal_ar_params" := ParamList [];
       "seasonal_ma_params" := ParamList [] ]} in
  let param_dict := foldl sort_param param_dict (zip res.1 res.2) in
  filter (λ kv, kept_param kv.2 = true) param_dict.

End StationaryParams.

(** The fitted values, in fit order, whose names pass a test. *)
Definition fitted_with (test : string → bool) (fitted : list (string * float))
  : list float :=
  (filter (λ np, test np.1 = true) fitted).*2.

(** The key under which the loop files a fitted name. *)
Definition param_key (name : string) : string :=
  if String.prefix "ar.S" name then "seasonal_ar_params"
  else if String.prefix "ma.S" name then "seasonal_ma_params"
  else if String.prefix "ar." name then "ar_params"
  else if String.prefix "ma." name then "ma_params"
  else "sigma_state".

(** What the returned dictionary holds for a list of the loop: nothing
    when the list is empty. *)
Definition list_entry (l : list float) : option param_value :=
  match l with
  | [] => None
  | _ => Some (ParamList l)
  end.

(** ** Deleting random variables from a model *)

(** A variable of the model graph.  Python compares variables by identity,
    kept here as a number; each carries its name. *)
Record variable : Type := mk_variable {
  var_id : nat;
  var_name : string
}.

#[global] Instance variable_eq_dec : EqDecision variable.
Proof. solve_decision. Defined.

#[global] Instance variable_countable : Countable variable.
Proof.
  apply (inj_countable' (λ v, (var_id v, var_name v))
           (λ p, mk_variable p.1 p.2)).
  by intros [].
Defined.

(** The mappings of a PyMC model that [delete_rvs_from_model] and
    [get_data_dims] touch. *)
Record ModelVars : Type := mk_ModelVars {
  named_vars : gmap string variable;
  named_vars_to_dims : gmap string (list (option string));
  free_RVs : list variable;
  observed_RVs : list variable;
  deterministics : list variable;
  rvs_to_values : gmap variable variable;
  values_to_rvs : gmap variable variable;
  rvs_to_transforms : gmap variable (option string);
  rvs_to_initial_values : gmap variable (option string)
}.

Definition set_named_vars (f : gmap string variable → gmap string variable)
    (m : ModelVars) : ModelVars :=
  mk_ModelVars (f (named_vars m)) (named_vars_to_dims m) (free_RVs m)
    (observed_RVs m) (deterministics m) (rvs_to_values m) (values_to_rvs m)
    (rvs_to_transforms m) (rvs_to_initial_values m).

Definition set_named_vars_to_dims
    (f : gmap string (list (option string)) → gmap string (list (option string)))
    (m : ModelVars) : ModelVars :=
  mk_ModelVars (named_vars m) (f (named_vars_to_dims m)) (free_RVs m)
    (observed_RVs m) (deterministics m) (rvs_to_values m) (values_to_rvs m)
    (rvs_to_transforms m) (rvs_to_initial_values m).

Definition set_free_RVs (f : list variable → list variable) (m : ModelVars)
  : ModelVars :=
  mk_ModelVars (named_vars m) (named_vars_to_dims m) (f (free_RVs m))
    (observed_RVs m) (deterministics m) (rvs_to_values m) (values_to_rvs m)
    (rvs_to_transforms m) (rvs_to_initial_values m).

Definition set_observed_RVs (f : list variable → list variable) (m : ModelVars)
  : ModelVars :=
  mk_ModelVars (named_vars m) (named_vars_to_dims m) (free_RVs m)
    (f (observed_RVs m)) (deterministics m) (rvs_to_values m) (values_to_rvs m)
    (rvs_to_transforms m) (rvs_to_initial_values m).

Definition set_deterministics (f : list variable → list variable)
    (m : ModelVars) : ModelVars :=
  mk_ModelVars (named_vars m) (named_vars_to_dims m) (free_RVs m)
    (observed_RVs m) (f (deterministics m)) (rvs_to_values m) (values_to_rvs m)
    (rvs_to_transforms m) (rvs_to_initial_values m).

Definition set_rvs_to_values
    (f : gmap variable variable → gmap variable variable) (m : ModelVars)
  : ModelVars :=
  mk_ModelVars (named_vars m) (named_vars_to_dims m) (free_RVs m)
    (observed_RVs m) (deterministics m) (f (rvs_to_values m)) (values_to_rvs m)
    (rvs_to_transforms m) (rvs_to_initial_values m).

Definition set_values_to_rvs
    (f : gmap variable variable → gmap variable variable) (m : ModelVars)
  : ModelVars :=
  mk_ModelVars (named_vars m) (named_vars_to_dims m) (free_RVs m)
    (observed_RVs m) (deterministics m) (rvs_to_values m) (f (values_to_rvs m))
    (rvs_to_transforms m) (rvs_to_initial_values m).

Definition set_rvs_to_transforms
    (f : gmap variable (option string) → gmap variable (option string))
    (m : ModelVars) : ModelVars :=
  mk_ModelVars (named_vars m) (named_vars_to_dims m) (free_RVs m)
    (observed_RVs m) (deterministics m) (rvs_to_values m) (values_to_rvs m)
    (f (rvs_to_transforms m)) (rvs_to_initial_values m).

Definition set_rvs_to_initial_values
    (f : gmap variable (option string) → gmap variable (option string))
    (m : ModelVars) : ModelVars :=
  mk_ModelVars (named_vars m) (named_vars_to_dims m) (free_RVs m)
    (observed_RVs m) (deterministics m) (rvs_to_values m) (values_to_rvs m)
    (rvs_to_transforms m) (f (rvs_to_initial_values m)).

(** [mod.basic_RVs]: the free and the observed random variables. *)
Definition basic_RVs (m : ModelVars) : list variable :=
  free_RVs m ++ observed_RVs m.

(** What the test utilities raise besides the exceptions of the data
    tools. *)
Inductive py_error : Type :=
| Raised (e : exn)
| KeyError_name (key : string)
| KeyError_var (key : variable)
| AssertionError (name : string) (all_rv_names : list string)
| ZeroDivisionError.

(** A statement that mutates the model: the model after it, and the
    exception it raised or its value.  What was mutated before an exception
    stays mutated. *)
Definition mut (A : Type) : Type := ModelVars → ModelVars * (py_error + A).

Definition mut_ret {A} (a : A) : mut A := λ m, (m, inr a).

Definition mut_raise {A} (e : py_error) : mut A := λ m, (m, inl e).

Definition mut_bind {A B} (c : mut A) (k : A → mut B) : mut B :=
  λ m, match c m with
       | (m', inl e) => (m', inl e)
       | (m', inr a) => k a m'
       end.

(** Reading the model. *)
Definition mut_read {A} (f : ModelVars → A) : mut A := λ m, (m, inr (f m)).

Declare Scope mut_scope.
Delimit Scope mut_scope with mut.
Notation "x <~ m ; k" := (mut_bind m (λ x, k))
  (at level 20, m at level 100, k at level 200, only parsing) : mut_scope.
Notation "m ;;; k" := (mut_bind m (λ _, k))
  (at level 100, k at level 200, right associativity) : mut_scope.

(** [d.pop(key)] on one of the model's dictionaries: a key error when the
    key is absent. *)
Definition dict_pop {K V} `{Countable K}
    (get : ModelVars → gmap K V)
    (set : (gmap K V → gmap K V) → ModelVars → ModelVars)
    (key : K) (err : py_error) : mut V :=
  λ m, match get m !! key with
       | Some v => (set (delete key) m, inr v)
       | None => (m, inl err)
       end.

(** [if key in d: d.pop(key)]. *)
Definition dict_discard {K V} `{Countable K}
    (get : ModelVars → gmap K V)
    (set : (gmap K V → gmap K V) → ModelVars → ModelVars)
    (key : K) (err : py_error) : mut unit :=
  mut_bind (mut_read (λ m, bool_decide (is_Some (get m !! key))))
    (λ present : bool,
       if present then mut_bind (dict_pop get set key err) (λ _, mut_ret tt)
       else mut_ret tt).

(** [l.remove(x)]: the first entry equal to [x] is removed; none is a
    value error. *)
Fixpoint remove_first (x : variable) (l : list variable)
  : option (list variable) :=
  match l with
  | [] => None
  | y :: l' =>
      if bool_decide (y = x) then Some l'
      else (y ::.) <$> remove_first x l'
  end.

Definition list_remove
    (get : ModelVars → list variable)
    (set : (list variable → list variable) → ModelVars → ModelVars)
    (x : variable) : mut unit :=
  λ m, match remove_first x (get m) with
       | Some l => (set (λ _, l) m, inr tt)
       | None => (m, inl (Raised (ValueError [Lit "list.remove(x): x not in list"])))
       end.

(** [l.index(x)] and [l[i]]. *)
Definition list_index (x : string) (l : list string) : mut nat :=
  match list_find (λ y, y = x) l with
  | Some (i, _) => mut_ret i
  | None => mut_raise (Raised (ValueError [Lit x; Lit " is not in list"]))
  end.

Definition list_item (l : list variable) (i : nat) : mut variable :=
  match l !! i with
  | Some v => mut_ret v
  | None => mut_raise (Raised (IndexError [Lit "list index out of range"]))
  end.

Section DeleteRVs.

Local Open Scope mut_scope.

(** The body of the loop, for one name, against the lists taken before
    the loop. *)
Definition delete_rv (all_rvs : list variable) (all_rv_names : list string)
    (name : string) : mut unit :=
  (if bool_decide (name ∈ all_rv_names) then mut_ret tt
   else mut_raise (AssertionError name all_rv_names)) ;;;
  rv_idx <~ list_index name all_rv_names;
  rv <~ list_item all_rvs rv_idx;
  dict_pop named_vars set_named_vars name (KeyError_name name) ;;;
  dict_discard named_vars_to_dims set_named_vars_to_dims name
    (KeyError_name name) ;;;
  is_deterministic <~ mut_read (λ m, bool_decide (rv ∈ deterministics m));
  if is_deterministic : bool then
    list_remove deterministics set_deterministics rv
  else
    value <~ dict_pop rvs_to_values set_rvs_to_values rv (KeyError_var rv);
    dict_pop values_to_rvs set_values_to_rvs value (KeyError_var value) ;;;
    dict_pop rvs_to_transforms set_rvs_to_transforms rv (KeyError_var rv) ;;;
    is_free <~ mut_read (λ m, bool_decide (rv ∈ free_RVs m));
    if is_free : bool then
      list_remove free_RVs set_free_RVs rv ;;;
      dict_pop rvs_to_initial_values set_rvs_to_initial_values rv
        (KeyError_var rv) ;;;
      mut_ret tt
    else list_remove observed_RVs set_observed_RVs rv.

(** The loop [for name in rv_names]. *)
Fixpoint delete_rvs_loop (all_rvs : list variable) (all_rv_names : list string)
    (rv_names : list string) : mut unit :=
  match rv_names with
  | [] => mut_ret tt
  | name :: rv_names =>
      delete_rv all_rvs all_rv_names name ;;;
      delete_rvs_loop all_rvs all_rv_names rv_names
  end.

(** [delete_rvs_from_model], run on the model that [modelcontext(None)]
    finds. *)
Definition delete_rvs_from_model (rv_names : list string) : mut unit :=
  all_rvs <~ mut_read (λ m, basic_RVs m ++ deterministics m);
  let all_rv_names := var_name <$> all_rvs in
  delete_rvs_loop all_rvs all_rv_names rv_names.

End DeleteRVs.

(** [get_data_dims] of the data tools, on the model that
    [modelcontext(None)] finds: the dimension names registered for a named
    tensor variable, and [None] for everything else. *)
Definition get_data_dims (data : data_container) (pm_mod : ModelVars)
  : option (list (option string)) :=
  match data with
  | TensorData t =>
      match tv_name t with
      | Some data_name =>
          if bool_decide (data_name = "") then None
          else named_vars_to_dims pm_mod !! data_name
      | None => None
      end
  | _ => None
  end.

(** The random variables and deterministics of a model, in the order in
    which [delete_rvs_from_model] lists them. *)
Definition all_rvs (m : ModelVars) : list variable :=
  basic_RVs m ++ deterministics m.

(** A model whose mappings agree with its variable lists: names are not
    shared, every listed variable is registered under its name, every basic
    random variable has a value variable that maps back to it and a
    transform entry, the two value mappings are inverse to each other, and
    every free random variable has an initial value entry. *)
Definition model_vars_wf (m : ModelVars) : Prop :=
  NoDup (var_name <$> all_rvs m)
  ∧ (∀ rv, rv ∈ all_rvs m → named_vars m !! var_name rv = Some rv)
  ∧ (∀ rv, rv ∈ basic_RVs m →
       ∃ value, rvs_to_values m !! rv = Some value
                ∧ is_Some (rvs_to_transforms m !! rv))
  ∧ (∀ rv value, rvs_to_values m !! rv = Some value ↔
                 values_to_rvs m !! value = Some rv)
  ∧ (∀ rv, rv ∈ free_RVs m → is_Some (rvs_to_initial_values m !! rv)).

(** The model [m'] is the model [m] without the variables named in
    [names]: they are gone from the three lists and from every mapping, and
    everything else is as it was. *)
Definition deleted (names : list string) (m m' : ModelVars) : Prop :=
  free_RVs m' = filter (λ v, var_name v ∉ names) (free_RVs m)
  ∧ observed_RVs m' = filter (λ v, var_name v ∉ names) (observed_RVs m)
  ∧ deterministics m' = filter (λ v, var_name v ∉ names) (deterministics m)
  ∧ (∀ name, named_vars m' !! name
             = if bool_decide (name ∈ names) then None
               else named_vars m !! name)
  ∧ (∀ name, named_vars_to_dims m' !! name
             = if bool_decide (name ∈ names) then None
               else named_vars_to_dims m !! name)
  ∧ (∀ rv, rvs_to_values m' !! rv
           = if bool_decide (var_name rv ∈ names ∧ rv ∈ basic_RVs m) then None
             else rvs_to_values m !! rv)
  ∧ (∀ value, values_to_rvs m' !! value
              = match values_to_rvs m !! value with
                | Some rv =>
                    if bool_decide (var_name rv ∈ names ∧ rv ∈ basic_RVs m)
                    then None else Some rv
                | None => None
                end)
  ∧ (∀ rv, rvs_to_transforms m' !! rv
           = if bool_decide (var_name rv ∈ names ∧ rv ∈ basic_RVs m) then None
             else rvs_to_transforms m !! rv)
  ∧ (∀ rv, rvs_to_initial_values m' !! rv
           = if bool_decide (var_name rv ∈ names ∧ rv ∈ free_RVs m) then None
             else rvs_to_initial_values m !! rv).

(** A small model to run the deletion on: a free random variable [x], an
    observed one [y] with a time dimension, and a deterministic [mu]. *)
Definition demo_model : ModelVars :=
  let x := mk_variable 1 "x" in
  let y := mk_variable 2 "y" in
  let mu := mk_variable 3 "mu" in
  let x_value := mk_variable 4 "x_value" in
  let y_value := mk_variable 5 "y_value" in
  mk_ModelVars
    {[ "x" := x; "y" := y; "mu" := mu ]}
    {[ "y" := [Some "time"] ]}
    [x] [y] [mu]
    {[ x := x_value; y := y_value ]}
    {[ x_value := x; y_value := y ]}
    {[ x := Some "log"; y := None ]}
    {[ x := None ]}.

(** ** The arrays handed to the filter tests *)

(** A float64 from a count. *)
Definition float_of_nat (k : nat) : float :=
  of_uint63 (Uint63Axioms.of_Z (Z.of_nat k)).

(** The matrix with [rows] rows and [cols] columns whose cell (i, j) is
    [f i j], laid out row by row. *)
Definition nd_tabulate (rows cols : nat) (f : nat → nat → float)
  : ndarray float :=
  mk_ndarray [rows; cols] (flat_map (λ i, f i <$> seq 0 cols) (seq 0 rows)).

(** The cell (i, j) of a matrix. *)
Definition nd_cell (a : ndarray float) (i j : nat) : option float :=
  match shape a with
  | [rows; cols] =>
      if bool_decide (i < rows ∧ j < cols)%nat
      then buffer a !! (i * cols + j)%nat else None
  | _ => None
  end.

(** [np.zeros(n)] and [np.zeros((rows, cols))]. *)
Definition np_zeros (n : nat) : ndarray float :=
  mk_ndarray [n] (replicate n 0%float).

Definition np_zeros2 (rows cols : nat) : ndarray float :=
  nd_tabulate rows cols (λ _ _, 0%float).

(** [np.eye(n, k=k)]: ones on the diagonal shifted by [k] columns. *)
Definition np_eye (n : nat) (k : Z) : ndarray float :=
  nd_tabulate n n
    (λ i j, if bool_decide (Z.of_nat j = Z.of_nat i + k) then 1%float
            else 0%float).

(** [np.arange(size, dtype=floatX).reshape(-1, cols)]: without columns the
    missing dimension cannot be worked out. *)
Definition arange_reshape (size cols : nat) : exn + ndarray float :=
  if bool_decide (cols = 0%nat) then
    inl (ValueError [Lit "cannot reshape array of size "; FmtInt (Z.of_nat size);
                     Lit " into shape (0)"])
  else if bool_decide (Nat.modulo size cols = 0%nat) then
    inr (mk_ndarray [Nat.div size cols; cols] (float_of_nat <$> seq 0 size))
  else
    inl (ValueError [Lit "cannot reshape array of size "; FmtInt (Z.of_nat size);
                     Lit " into shape ("; FmtInt (Z.of_nat cols); Lit ")"]).

(** [a[:, :r]] and [a[:p, :]] on a matrix: the leading columns and the
    leading rows, as many as there are. *)
Definition leading_cols (a : ndarray float) (r : nat) : ndarray float :=
  match shape a with
  | [rows; cols] =>
      nd_tabulate rows (r `min` cols)
        (λ i j, default 0%float (buffer a !! (i * cols + j)%nat))
  | _ => a
  end.

Definition leading_rows (a : ndarray float) (p : nat) : ndarray float :=
  match shape a with
  | [rows; cols] =>
      nd_tabulate (p `min` rows) cols
        (λ i j, default 0%float (buffer a !! (i * cols + j)%nat))
  | _ => a
  end.

(** [a[0, :] = v] on a matrix; without a first row it is an index error. *)
Definition set_first_row (a : ndarray float) (v : float) : exn + ndarray float :=
  match shape a with
  | [rows; cols] =>
      if bool_decide (rows = 0%nat) then
        inl (IndexError (out_of_bounds_message 0 0))
      else
        inr (nd_tabulate rows cols
               (λ i j, if bool_decide (i = 0%nat) then v
                       else default 0%float (buffer a !! (i * cols + j)%nat)))
  | _ => inl (IndexError [Lit "too many indices for array"])
  end.

(** What [make_test_inputs] returns, in its order. *)
Record TestInputs : Type := mk_TestInputs {
  ti_data : ndarray float;
  ti_a0 : ndarray float;
  ti_P0 : ndarray float;
  ti_c : ndarray float;
  ti_d : ndarray float;
  ti_T : ndarray float;
  ti_Z : ndarray float;
  ti_R : ndarray float;
  ti_H : ndarray float;
  ti_Q : ndarray float
}.

Definition lift_exn {A} (r : exn + A) : py_error + A :=
  match r with
  | inl e => inl (Raised e)
  | inr a => inr a
  end.

Section MakeTestInputs.

Variable rng_choice : nat → nat → exn + list nat.

(** [make_test_inputs], with float64 for [floatX]. *)
Definition make_test_inputs (p m r n : nat) (missing_data : option nat)
    (H_is_zero : bool) : py_error + TestInputs :=
  match lift_exn (arange_reshape (n * p) p) with
  | inl e => inl e
  | inr data =>
      match (match missing_data with
             | Some n_missing =>
                 lift_exn (add_missing_data rng_choice data n_missing)
             | None => inr data
             end) with
      | inl e => inl e
      | inr data =>
          let a0 := np_zeros m in
          let P0 := np_eye m 0 in
          let c := np_zeros m in
          let d := np_zeros p in
          let Q := np_eye r 0 in
          let H := if H_is_zero then np_zeros2 p p else np_eye p 0 in
          let T := np_eye m (-1) in
          if bool_decide (m = 0%nat) then inl ZeroDivisionError
          else
            match lift_exn
                    (set_first_row T (1 / float_of_nat m)%float) with
            | inl e => inl e
            | inr T =>
                let R := leading_cols (np_eye m 0) r in
                let Z := leading_rows (np_eye m 0) p in
                inr (mk_TestInputs data a0 P0 c d T Z R H Q)
            end
      end
  end.

End MakeTestInputs.

(** An array holds as many cells as its shape says. *)
Definition nd_wf {A} (a : ndarray A) : Prop :=
  length (buffer a) = foldr Nat.mul 1%nat (shape a).

(** * Properties *)

(** ** Warnings and exceptions *)

Lemma py_bind_outcome_inl {A B} (m : py A) (k : A → py B) e :
  outcome m = inl e → outcome (py_bind m k) = inl e.
Proof. destruct m as [ws [e'|a]]; unfold outcome; simpl; by intros [= ->]. Qed.

Lemma py_bind_outcome_inr {A B} (m : py A) (k : A → py B) a :
  outcome m = inr a → outcome (py_bind m k) = outcome (k a).
Proof.
  destruct m as [ws [e'|a']]; unfold outcome; simpl; [discriminate |].
  intros [= ->]. by destruct (k a).
Qed.

Lemma warn_if_outcome c w : outcome (warn_if c w) = inr tt.
Proof. by destruct c. Qed.

(** ** The masker *)

Lemma invalid_isfinite x : negb (np_isfinite x) = invalid x.
Proof. unfold np_isfinite, is_finite, invalid. by rewrite negb_involutive. Qed.

Lemma nan_mask_lookup (values : ndarray float) k :
  buffer (ma_mask (masked_invalid values)) !! k
  = invalid <$> buffer values !! k.
Proof.
  simpl. rewrite list_lookup_fmap.
  destruct (buffer values !! k); simpl; [|done]. by rewrite invalid_isfinite.
Qed.

Lemma filled_lookup (values : ndarray float) fill k :
  buffer (ma_filled (masked_invalid values) fill) !! k
  = (λ x, if invalid x then fill else x) <$> buffer values !! k.
Proof.
  simpl. rewrite lookup_zip_with, list_lookup_fmap.
  destruct (buffer values !! k); simpl; [|done]. by rewrite invalid_isfinite.
Qed.

(** What the masker hands back whenever it returns. *)
Lemma masker_returns MISSING_FILL values fill w filled nan_mask :
  mask_missing_values_in_data MISSING_FILL values fill
  = (w, inr (filled, nan_mask)) →
  filled = ma_filled (masked_invalid values) (default MISSING_FILL fill)
  ∧ nan_mask = ma_mask (masked_invalid values).
Proof.
  unfold mask_missing_values_in_data.
  destruct (np_any (ma_mask (masked_invalid values)));
    [destruct (np_any (nd_eq_scalar values (default MISSING_FILL fill)))|];
    simpl; intros ?; by simplify_eq.
Qed.

(** When the masker raises, and what. *)
Lemma masker_outcome MISSING_FILL values fill :
  outcome (mask_missing_values_in_data MISSING_FILL values fill)
  = if np_any (ma_mask (masked_invalid values))
       && np_any (nd_eq_scalar values (default MISSING_FILL fill))
    then inl (ValueError (collision_message (default MISSING_FILL fill)))
    else inr (ma_filled (masked_invalid values) (default MISSING_FILL fill),
              ma_mask (masked_invalid values)).
Proof.
  unfold mask_missing_values_in_data.
  destruct (np_any (ma_mask (masked_invalid values)));
    [destruct (np_any (nd_eq_scalar values (default MISSING_FILL fill)))|];
    done.
Qed.

Lemma np_any_nd_map {A} (f : A → bool) (a : ndarray A) :
  np_any (nd_map f a) = true ↔ ∃ x, x ∈ buffer a ∧ f x = true.
Proof.
  unfold np_any, nd_map. simpl. rewrite existsb_exists. split.
  - intros (b & Hin & Hb). unfold id in Hb. subst b.
    apply list_elem_of_In, list_elem_of_fmap in Hin as (x & Hx & Hin). eauto.
  - intros (x & Hin & Hx). exists true. split; [|done].
    apply list_elem_of_In, list_elem_of_fmap. eauto.
Qed.

Lemma nan_mask_any (values : ndarray float) :
  np_any (ma_mask (masked_invalid values)) = true
  ↔ ∃ x, x ∈ buffer values ∧ invalid x = true.
Proof.
  unfold masked_invalid. simpl. rewrite np_any_nd_map.
  by setoid_rewrite invalid_isfinite.
Qed.

(** C1 (amended): whenever the masker returns, the mask and the filled
    array have the shape and the size of the input; the mask is true
    exactly at the cells holding NaN or an infinity, and the filled array is
    the input with exactly those cells set to the sentinel. *)
Theorem mask_missing_values_marks_invalid
    MISSING_FILL values fill w filled nan_mask :
  mask_missing_values_in_data MISSING_FILL values fill
  = (w, inr (filled, nan_mask)) →
  shape nan_mask = shape values
  ∧ length (buffer nan_mask) = length (buffer values)
  ∧ shape filled = shape values
  ∧ length (buffer filled) = length (buffer values)
  ∧ ∀ k x, buffer values !! k = Some x →
      buffer nan_mask !! k = Some (is_nan x || is_infinity x)
      ∧ buffer filled !! k
        = Some (if is_nan x || is_infinity x
                then default MISSING_FILL fill else x).
Proof.
  intros [-> ->]%masker_returns.
  split; [done |]. split; [simpl; by rewrite length_fmap |].
  split; [done |].
  split; [simpl; rewrite length_zip_with, length_fmap; lia |].
  intros k x Hx. by rewrite nan_mask_lookup, filled_lookup, Hx.
Qed.

Lemma mask_missing_values_marks_invalid_witness :
  shape (mk_ndarray [2; 2]%nat [false; true; true; false]) = [2; 2]%nat
  ∧ length [false; true; true; false] = 4%nat
  ∧ shape (mk_ndarray [2; 2]%nat
             [1%float; (-9999)%float; (-9999)%float; 4%float]) = [2; 2]%nat
  ∧ length [1%float; (-9999)%float; (-9999)%float; 4%float] = 4%nat
  ∧ ∀ k x, [1%float; nan; neg_infinity; 4%float] !! k = Some x →
      [false; true; true; false] !! k = Some (is_nan x || is_infinity x)
      ∧ [1%float; (-9999)%float; (-9999)%float; 4%float] !! k
        = Some (if is_nan x || is_infinity x then (-9999)%float else x).
Proof.
  apply (mask_missing_values_marks_invalid (-9999)%float
           (mk_ndarray [2; 2]%nat [1%float; nan; neg_infinity; 4%float]) None
           [ImputationWarning impute_message]
           (mk_ndarray [2; 2]%nat
              [1%float; (-9999)%float; (-9999)%float; 4%float])
           (mk_ndarray [2; 2]%nat [false; true; true; false])).
  vm_compute. reflexivity.
Defined.

(** C1 as stated fails: on a matrix holding an infinity the masker returns
    a mask that is true at a cell whose value is not NaN. *)
Lemma mask_missing_values_nan_only_counterexample :
  mask_missing_values_in_data (-9999)%float
    (mk_ndarray [1; 1]%nat [infinity]) None
  = ([ImputationWarning impute_message],
     inr (mk_ndarray [1; 1]%nat [(-9999)%float],
          mk_ndarray [1; 1]%nat [true]))
  ∧ is_nan infinity = false.
Proof. split; vm_compute; reflexivity. Qed.

(** C2 (amended): the masker raises exactly when the input holds a cell
    that is NaN or infinite and also a cell that compares equal to the
    sentinel; the exception is then the collision value error; and an input
    with finite cells only is accepted, sentinel among them or not. *)
Theorem mask_missing_values_raises_iff MISSING_FILL values fill :
  ((∃ e, raises (mask_missing_values_in_data MISSING_FILL values fill) e)
   ↔ (∃ x, x ∈ buffer values ∧ invalid x = true)
     ∧ (∃ y, y ∈ buffer values
             ∧ PrimFloat.eqb y (default MISSING_FILL fill) = true))
  ∧ (∀ e, raises (mask_missing_values_in_data MISSING_FILL values fill) e →
          e = ValueError (collision_message (default MISSING_FILL fill)))
  ∧ ((∀ x, x ∈ buffer values → invalid x = false) →
     ∃ r, returns (mask_missing_values_in_data MISSING_FILL values fill) r).
Proof.
  unfold raises, returns. rewrite masker_outcome.
  rewrite <- nan_mask_any.
  rewrite <- (np_any_nd_map (λ x, PrimFloat.eqb x (default MISSING_FILL fill))).
  fold (nd_eq_scalar values (default MISSING_FILL fill)).
  destruct (np_any (ma_mask (masked_invalid values))) eqn:Hany;
    [destruct (np_any (nd_eq_scalar values (default MISSING_FILL fill)))|];
    simpl.
  - split; [split; [done | eauto] |]. split; [by intros e [= <-] |].
    intros Hfin. apply nan_mask_any in Hany as (x & Hin & Hx).
    rewrite (Hfin x Hin) in Hx. discriminate.
  - split; [split; [by intros [e ?] | by intros [_ ?]] |].
    split; [by intros e | eauto].
  - split; [split; [by intros [e ?] | by intros [? _]] |].
    split; [by intros e | eauto].
Qed.

(** C2 as stated fails: a matrix with no NaN at all, holding an infinity
    and the sentinel, is refused with the collision error. *)
Lemma mask_missing_values_no_nan_counterexample :
  existsb is_nan (buffer (mk_ndarray [2; 1]%nat [infinity; (-9999)%float]))
  = false
  ∧ mask_missing_values_in_data 0%float
      (mk_ndarray [2; 1]%nat [infinity; (-9999)%float]) (Some (-9999)%float)
    = ([], inl (ValueError (collision_message (-9999)%float))).
Proof. split; vm_compute; reflexivity. Qed.

(** C3 (amended): for every matrix the masker accepts, putting NaN back at
    the masked cells of the filled matrix gives an array of the input's
    shape that agrees with the input at every finite cell and holds NaN at
    every cell where the input held NaN or an infinity. *)
Theorem mask_missing_values_round_trip
    MISSING_FILL values fill w filled nan_mask :
  mask_missing_values_in_data MISSING_FILL values fill
  = (w, inr (filled, nan_mask)) →
  shape (reinsert_nan filled nan_mask) = shape values
  ∧ length (buffer (reinsert_nan filled nan_mask)) = length (buffer values)
  ∧ ∀ k x, buffer values !! k = Some x →
      buffer (reinsert_nan filled nan_mask) !! k
      = Some (if np_isfinite x then x else nan).
Proof.
  intros [-> ->]%masker_returns.
  split; [done |].
  split; [simpl; rewrite !length_zip_with, !length_fmap; lia |].
  intros k x Hx. unfold reinsert_nan. cbn [buffer]. rewrite lookup_zip_with.
  rewrite nan_mask_lookup, filled_lookup, Hx. simpl.
  rewrite <- invalid_isfinite. by destruct (np_isfinite x).
Qed.

Lemma mask_missing_values_round_trip_witness :
  shape (reinsert_nan
           (mk_ndarray [3; 1]%nat [1%float; (-9999)%float; (-9999)%float])
           (mk_ndarray [3; 1]%nat [false; true; true])) = [3; 1]%nat
  ∧ length (buffer (reinsert_nan
           (mk_ndarray [3; 1]%nat [1%float; (-9999)%float; (-9999)%float])
           (mk_ndarray [3; 1]%nat [false; true; true]))) = 3%nat
  ∧ ∀ k x, [1%float; nan; infinity] !! k = Some x →
      buffer (reinsert_nan
           (mk_ndarray [3; 1]%nat [1%float; (-9999)%float; (-9999)%float])
           (mk_ndarray [3; 1]%nat [false; true; true])) !! k
      = Some (if np_isfinite x then x else nan).
Proof.
  apply (mask_missing_values_round_trip (-9999)%float
           (mk_ndarray [3; 1]%nat [1%float; nan; infinity]) None
           [ImputationWarning impute_message]).
  vm_compute. reflexivity.
Defined.

(** C3 as stated fails: a matrix holding an infinity is accepted, and the
    round trip puts NaN where the input, not a NaN, held the infinity. *)
Lemma mask_missing_values_round_trip_counterexample :
  mask_missing_values_in_data (-9999)%float
    (mk_ndarray [1; 1]%nat [infinity]) None
  = ([ImputationWarning impute_message],
     inr (mk_ndarray [1; 1]%nat [(-9999)%float],
          mk_ndarray [1; 1]%nat [true]))
  ∧ is_nan infinity = false
  ∧ buffer (reinsert_nan (mk_ndarray [1; 1]%nat [(-9999)%float])
              (mk_ndarray [1; 1]%nat [true])) !! 0%nat = Some nan
  ∧ nan ≠ infinity.
Proof.
  repeat split; try (vm_compute; reflexivity).
  intros H. assert (is_nan nan = is_nan infinity) as Hn by (by rewrite H).
  vm_compute in Hn. discriminate.
Qed.

(** ** The shape validator *)

Lemma validate_not_2d data_shape n_obs obs_coords check col_names :
  length data_shape ≠ 2%nat →
  raises (_validate_data_shape data_shape n_obs obs_coords check col_names)
    (ValueError not_2d_message).
Proof.
  intros Hlen. unfold raises, _validate_data_shape.
  apply py_bind_outcome_inl. by rewrite bool_decide_eq_true_2.
Qed.

Lemma validate_column_count rows found n_obs obs_coords check col_names :
  Z.of_nat found ≠ n_obs →
  raises (_validate_data_shape [rows; found] n_obs obs_coords check col_names)
    (ValueError (column_count_message n_obs found)).
Proof.
  intros Hne. unfold raises, _validate_data_shape.
  rewrite py_bind_outcome_inr with (a := tt) by done.
  rewrite py_bind_outcome_inr with (a := found) by done.
  apply py_bind_outcome_inl. by rewrite bool_decide_eq_true_2.
Qed.

(** Past the two shape checks, the validator is the column-name check. *)
Lemma validate_shape_ok rows found obs_coords check col_names :
  outcome (_validate_data_shape [rows; found] (Z.of_nat found) obs_coords
             check col_names)
  = outcome
      (if check then
         match obs_coords with
         | None => py_raise (TypeError [Lit "'NoneType' object is not iterable"])
         | Some obs_coords =>
             raise_if (bool_decide
                (0 < size (list_to_set obs_coords ∖ list_to_set (default [] col_names)
                           : gset string))%nat)
               (ValueError (missing_cols_message
                  (list_to_set obs_coords ∖ list_to_set (default [] col_names))))
         end
       else py_ret tt).
Proof.
  unfold _validate_data_shape.
  rewrite py_bind_outcome_inr with (a := tt) by done.
  rewrite py_bind_outcome_inr with (a := found) by done.
  rewrite py_bind_outcome_inr with (a := tt); [done |].
  by rewrite bool_decide_eq_false_2 by (intros Hne; by apply Hne).
Qed.

Lemma missing_cols_pos (obs_coords col_names : list string) :
  (0 < size (list_to_set obs_coords ∖ list_to_set col_names : gset string))%nat
  ↔ ∃ name, name ∈ obs_coords ∧ name ∉ col_names.
Proof.
  split.
  - intros [name Hin]%size_pos_elem_of.
    exists name. set_solver.
  - intros (name & Hin & Hnot).
    assert (size (list_to_set obs_coords ∖ list_to_set col_names : gset string)
            ≠ 0%nat); [| lia].
    apply size_non_empty_iff. set_solver.
Qed.

Lemma validate_shape_ok_no_shape_error
    rows found obs_coords check col_names e :
  raises (_validate_data_shape [rows; found] (Z.of_nat found) obs_coords
            check col_names) e →
  ¬ shape_error e.
Proof.
  unfold raises. rewrite validate_shape_ok.
  destruct check; [destruct obs_coords as [oc|] |]; simpl.
  - case_bool_decide; simpl; intros [= <-];
      intros [? | (n & f & ?)]; discriminate.
  - intros [= <-]. intros [? | (n & f & ?)]; discriminate.
  - discriminate.
Qed.

Lemma length_2_inv {A} (l : list A) :
  length l = 2%nat → ∃ a b, l = [a; b].
Proof. destruct l as [|a [|b [|c l]]]; simpl; intros; try lia; eauto. Qed.

(** C5: the validator raises the rank error on every shape that is not of
    rank 2, raises the column-count error, carrying the expected and the
    found count, on every rank-2 shape whose last axis is not [n_obs], and
    raises no shape error on a rank-2 shape whose last axis is [n_obs]; so
    it raises a shape error exactly when the shape is not of rank 2 or its
    last axis differs from [n_obs]. *)
Theorem validate_data_shape_shape_errors
    data_shape n_obs obs_coords check col_names :
  (length data_shape ≠ 2%nat →
   raises (_validate_data_shape data_shape n_obs obs_coords check col_names)
     (ValueError not_2d_message))
  ∧ (∀ rows found, data_shape = [rows; found] → Z.of_nat found ≠ n_obs →
     raises (_validate_data_shape data_shape n_obs obs_coords check col_names)
       (ValueError
          [Lit "Shape of data does not match model output. Expected ";
           FmtInt n_obs; Lit " columns, found "; FmtInt (Z.of_nat found);
           Lit "."]))
  ∧ (∀ rows found, data_shape = [rows; found] → Z.of_nat found = n_obs →
     ∀ e, raises (_validate_data_shape data_shape n_obs obs_coords check
                    col_names) e →
          ¬ shape_error e)
  ∧ ((∃ e, raises (_validate_data_shape data_shape n_obs obs_coords check
                     col_names) e ∧ shape_error e)
     ↔ length data_shape ≠ 2%nat
       ∨ ∃ found, last data_shape = Some found ∧ Z.of_nat found ≠ n_obs).
Proof.
  split; [apply validate_not_2d |].
  split; [intros rows found ->; apply validate_column_count |].
  split.
  { intros rows found -> <-. apply validate_shape_ok_no_shape_error. }
  split.
  - intros (e & Hraise & Hshape).
    destruct (decide (length data_shape = 2%nat)) as [Hlen|]; [| by left].
    apply length_2_inv in Hlen as (rows & found & ->).
    destruct (decide (Z.of_nat found = n_obs)) as [<-|Hne].
    + by apply validate_shape_ok_no_shape_error in Hraise.
    + right. by exists found.
  - intros [Hlen | (found & Hlast & Hne)].
    + exists (ValueError not_2d_message).
      split; [by apply validate_not_2d | by left].
    + destruct (decide (length data_shape = 2%nat)) as [Hlen|Hlen].
      * apply length_2_inv in Hlen as (rows & found' & ->).
        simpl in Hlast. injection Hlast as ->.
        exists (ValueError (column_count_message n_obs found)).
        split; [by apply validate_column_count |].
        right. by exists n_obs, found.
      * exists (ValueError not_2d_message).
        split; [by apply validate_not_2d | by left].
Qed.

Example validate_rank_3 :
  _validate_data_shape [3; 4; 5]%nat 5 None false None
  = ([], inl (ValueError not_2d_message)).
Proof. reflexivity. Qed.

Example validate_two_columns_for_one :
  _validate_data_shape [10; 2]%nat 1 None false None
  = ([], inl (ValueError
       [Lit "Shape of data does not match model output. Expected ";
        FmtInt 1; Lit " columns, found "; FmtInt 2; Lit "."])).
Proof. reflexivity. Qed.

Example validate_missing_column :
  _validate_data_shape [10; 2]%nat 2 (Some ["a"; "b"]) true (Some ["a"; "c"])
  = ([], inl (ValueError (missing_cols_message {["b"]}))).
Proof. vm_compute. reflexivity. Qed.

Example validate_extra_column :
  _validate_data_shape [10; 3]%nat 3 (Some ["a"; "b"]) true
    (Some ["c"; "b"; "a"])
  = ([], inr tt).
Proof. vm_compute. reflexivity. Qed.

(** C9: on a shape that passes the shape checks, with the column-name
    check switched on, the validator raises the missing-column error
    exactly when some expected label is not among the column names; when
    every expected label is among them it returns, whatever further columns
    there are. *)
Theorem validate_data_shape_missing_columns
    rows found (obs_coords : list string) (col_names : option (list string)) :
  ((∃ missing_cols,
      raises (_validate_data_shape [rows; found] (Z.of_nat found)
                (Some obs_coords) true col_names)
        (ValueError (missing_cols_message missing_cols)))
   ↔ ∃ name, name ∈ obs_coords ∧ name ∉ default [] col_names)
  ∧ ((∃ name, name ∈ obs_coords ∧ name ∉ default [] col_names) →
     raises (_validate_data_shape [rows; found] (Z.of_nat found)
               (Some obs_coords) true col_names)
       (ValueError (missing_cols_message
          (list_to_set obs_coords ∖ list_to_set (default [] col_names)))))
  ∧ ((∀ name, name ∈ obs_coords → name ∈ default [] col_names) →
     ∀ extra,
       returns (_validate_data_shape [rows; found] (Z.of_nat found)
                  (Some obs_coords) true
                  (Some (default [] col_names ++ extra))) tt).
Proof.
  unfold raises, returns. rewrite validate_shape_ok.
  split; [split |]; [| | split].
  - intros [missing Hraise]. apply missing_cols_pos.
    case_bool_decide; [done | discriminate].
  - intros Hex%missing_cols_pos. rewrite bool_decide_eq_true_2 by done.
    eauto.
  - intros Hex%missing_cols_pos. by rewrite bool_decide_eq_true_2.
  - intros Hall extra. rewrite validate_shape_ok. simpl.
    rewrite bool_decide_eq_false_2; [done |].
    rewrite missing_cols_pos. intros (name & Hin & Hnot).
    apply Hnot, elem_of_app. left. by apply Hall.
Qed.

(** ** Preprocessing of tables *)








(** What [preprocess_pandas_data] does once the validator has returned. *)
Lemma preprocess_pandas_validated
    inferred_freq data n_obs obs_coords check :
  returns (_validate_data_shape (df_shape (as_frame data)) n_obs obs_coords
             check (Some (columns (as_frame data)))) tt →
  outcome (preprocess_pandas_data inferred_freq data n_obs obs_coords check)
  = match index (as_frame data) with
    | DatetimeIndex stamps freq =>
        inr (df_values (as_frame data),
             DatetimeLabels stamps
               (match freq with None => inferred_freq stamps | Some f => Some f end))
    | RangeIndex _ _ _ =>
        outcome (preprocess_numpy_data (df_values (as_frame data)) n_obs obs_coords)
    | MultiIndex _ => inl (NotImplementedError multiindex_message)
    | IntIndex labels =>
        outcome (check_consecutive labels ;;;
                 preprocess_numpy_data (df_values (as_frame data)) n_obs obs_coords)
    | FloatIndex _ | ObjectIndex _ => inl (IndexError not_integer_index_message)
    end.
Proof.
  intros Hvalid. unfold preprocess_pandas_data.
  rewrite py_bind_outcome_inr with (a := tt) by done.
  destruct (index (as_frame data)) as [stamps [f|] | | | | |];
    try done;
    by rewrite py_bind_outcome_inr with (a := tt) by apply warn_if_outcome.
Qed.

Lemma preprocess_pandas_invalid
    inferred_freq data n_obs obs_coords check e :
  raises (_validate_data_shape (df_shape (as_frame data)) n_obs obs_coords
            check (Some (columns (as_frame data)))) e →
  raises (preprocess_pandas_data inferred_freq data n_obs obs_coords check) e.
Proof. intros Hraise. by apply py_bind_outcome_inl. Qed.




(** C8 (amended): for every table with a hierarchical row index whose
    shape passes the validator, preprocessing raises the not-implemented
    error, whatever the table holds. *)
Theorem preprocess_pandas_multiindex
    inferred_freq data n_obs obs_coords check tuples :
  index (as_frame data) = MultiIndex tuples →
  returns (_validate_data_shape (df_shape (as_frame data)) n_obs obs_coords
             check (Some (columns (as_frame data)))) tt →
  raises (preprocess_pandas_data inferred_freq data n_obs obs_coords check)
    (NotImplementedError multiindex_message).
Proof.
  intros Hidx Hvalid. unfold raises.
  by rewrite preprocess_pandas_validated, Hidx.
Qed.

Lemma preprocess_pandas_multiindex_witness :
  raises (preprocess_pandas_data (λ _, None)
            (Series None (MultiIndex [["a"; "x"]; ["a"; "y"]]) [1%float; nan])
            1 (Some ["data"]) true)
    (NotImplementedError multiindex_message).
Proof.
  apply (preprocess_pandas_multiindex (λ _, None)
           (Series None (MultiIndex [["a"; "x"]; ["a"; "y"]]) [1%float; nan])
           1 (Some ["data"]) true [["a"; "x"]; ["a"; "y"]]).
  - reflexivity.
  - vm_compute. reflexivity.
Defined.

(** C8 as stated fails: a hierarchical table of two columns set against one
    expected series raises the column-count value error, not the
    not-implemented error. *)
Lemma preprocess_pandas_multiindex_counterexample :
  preprocess_pandas_data (λ _, None)
    (Frame (mk_DataFrame ["a"; "b"] (MultiIndex [["x"; "1"]])
              [1%float; 2%float]))
    1 None false
  = ([], inl (ValueError (column_count_message 1 2))).
Proof. vm_compute. reflexivity. Qed.

(** ** Registration of the time coordinate *)

Lemma np_array_equal_eq (a b : list label) :
  np_array_equal a b = true ↔ a = b.
Proof.
  unfold np_array_equal. rewrite andb_true_iff, bool_decide_eq_true.
  revert b. induction a as [|x a IH]; intros [|y b]; simpl;
    try (split; [intros [? _] | intros ?]; done).
  rewrite andb_true_iff, bool_decide_eq_true. simpl. split.
  - intros (Hlen & -> & Hall). f_equal. apply IH. split; [lia | done].
  - intros [= -> ->]. split; [done |]. split; [done |].
    by apply (IH b).
Qed.

Lemma add_coord_fresh name values m :
  name ∉ reserved_dim_names →
  coords m !! name = None →
  add_coord name values m
  = inr (mk_Model (<[name := Some values]> (coords m))
           (<[name := length values]> (dim_lengths m))).
Proof.
  intros Hres Hfresh. unfold add_coord.
  by rewrite bool_decide_eq_false_2, Hfresh.
Qed.

(** C6 (amended): registration of the time coordinate, for every index and
    every model.  If the time-dimension name is absent from the coordinates
    and is a name PyMC lets a dimension carry, it is created, bound to the
    index, with the length of the index recorded; if it is absent and is one
    of the reserved names, registration raises PyMC's value error.  If the
    name is bound to [None], it is rebound to the index.  In the two
    successful cases the data is then declared in the updated model.  If the
    name is bound to a sequence that differs from the index, the empty
    sequence included, registration raises the value error of the conflict. *)
Theorem add_data_binds_time_coord
    TIME_DIM OBS_STATE_DIM DataVar pm_Data
    values index data_dims time_dim rest pymc_mod :
  default [TIME_DIM; OBS_STATE_DIM] data_dims = time_dim :: rest →
  (coords pymc_mod !! time_dim = None →
   time_dim ∉ reserved_dim_names →
   add_data_to_active_model TIME_DIM OBS_STATE_DIM DataVar pm_Data
     values index data_dims pymc_mod
   = declare_data DataVar pm_Data values (time_dim :: rest)
       (mk_Model (<[time_dim := Some index]> (coords pymc_mod))
          (<[time_dim := length index]> (dim_lengths pymc_mod))))
  ∧ (coords pymc_mod !! time_dim = None →
     time_dim ∈ reserved_dim_names →
     add_data_to_active_model TIME_DIM OBS_STATE_DIM DataVar pm_Data
       values index data_dims pymc_mod
     = inl (ValueError reserved_dim_message))
  ∧ (coords pymc_mod !! time_dim = Some None →
     add_data_to_active_model TIME_DIM OBS_STATE_DIM DataVar pm_Data
       values index data_dims pymc_mod
     = declare_data DataVar pm_Data values (time_dim :: rest)
         (mk_Model (<[time_dim := Some index]> (coords pymc_mod))
            (dim_lengths pymc_mod)))
  ∧ (∀ found_time,
       coords pymc_mod !! time_dim = Some (Some found_time) →
       found_time ≠ index →
       add_data_to_active_model TIME_DIM OBS_STATE_DIM DataVar pm_Data
         values index data_dims pymc_mod
       = inl (ValueError time_index_conflict_message)).
Proof.
  intros Hdims. unfold add_data_to_active_model. rewrite Hdims.
  split; [| split; [| split]].
  - intros Habsent Hres. unfold bind_time_coord. rewrite Habsent.
    by rewrite add_coord_fresh.
  - intros Habsent Hres. unfold bind_time_coord, add_coord. rewrite Habsent.
    by rewrite bool_decide_eq_true_2.
  - intros Hnone. unfold bind_time_coord. by rewrite Hnone.
  - intros found_time Hfound Hne. unfold bind_time_coord. rewrite Hfound.
    destruct (np_array_equal found_time index) eqn:Heq; [| done].
    by apply np_array_equal_eq in Heq.
Qed.

(** What the dimension loop of [pm.Data] does to the coordinates when it
    goes through: the dimensions the model did not know are bound to
    [None], every other coordinate is as it was; and a dimension bound to
    labels was a known one. *)
Lemma register_dims_coords dims m m' :
  register_dims dims m = inr m' →
  (∀ d, coords m' !! d
        = if bool_decide (d ∈ dims.*1 ∧ dim_lengths m !! d = None)
          then Some None else coords m !! d)
  ∧ (∀ d found, coords m !! d = Some (Some found) → d ∈ dims.*1 →
                is_Some (dim_lengths m !! d)).
Proof.
  revert m. induction dims as [|[dname len] dims IH]; intros m Hreg.
  - injection Hreg as <-. split.
    + intros d. rewrite bool_decide_eq_false_2; [done |].
      intros [Hin _]. by apply elem_of_nil in Hin.
    + intros d found _ Hin. by apply elem_of_nil in Hin.
  - cbn [register_dims] in Hreg. csimpl.
    case_bool_decide as Hknown.
    + destruct (IH m Hreg) as [Hco Hlab]. split.
      * intros d. rewrite Hco. apply (f_equal (λ b : bool, if b then _ else _)).
        apply bool_decide_ext. rewrite elem_of_cons.
        split; [tauto |]. intros [[-> | Hin] Hnone]; [| done].
        rewrite Hnone in Hknown. by destruct Hknown.
      * intros d found Hd [-> | Hin]%elem_of_cons; [done |]. by eapply Hlab.
    + unfold add_dim in Hreg.
      destruct (bool_decide (dname ∈ reserved_dim_names)); [done |].
      assert (dim_lengths m !! dname = None) as Hnone.
      { destruct (dim_lengths m !! dname) eqn:Hl; [| done].
        destruct Hknown. by eexists. }
      assert (∀ found, coords m !! dname ≠ Some (Some found)) as Hfree.
      { intros found Hd. by rewrite Hd in Hreg. }
      assert (register_dims dims
                (mk_Model (<[dname := None]> (coords m))
                   (<[dname := len]> (dim_lengths m))) = inr m') as Hreg'.
      { by destruct (coords m !! dname) as [[found|]|]. }
      destruct (IH _ Hreg') as [Hco Hlab]. simpl in Hco, Hlab. split.
      * intros d. rewrite Hco. destruct (decide (d = dname)) as [-> | Hne].
        -- rewrite lookup_insert_eq.
           rewrite bool_decide_eq_false_2 by (intros [_ ?]; done).
           rewrite lookup_insert_eq.
           rewrite bool_decide_eq_true_2; [done |].
           split; [apply elem_of_cons; by left | done].
        -- rewrite !lookup_insert_ne by done.
           apply (f_equal (λ b : bool, if b then _ else _)).
           apply bool_decide_ext. rewrite elem_of_cons.
           split; [intros [Hin Hl]; split; [by right | done] |].
           intros [[Heq | Hin] Hl]; [done | by split].
      * intros d found Hd [-> | Hin]%elem_of_cons.
        -- by destruct (Hfree found).
        -- destruct (decide (d = dname)) as [-> | Hne];
             [by destruct (Hfree found) |].
           specialize (Hlab d found). rewrite !lookup_insert_ne in Hlab by done.
           by apply Hlab.
Qed.

(** When the model knows every dimension, the loop leaves it as it is. *)
Lemma register_dims_known dims m :
  (∀ d, d ∈ dims.*1 → is_Some (dim_lengths m !! d)) →
  register_dims dims m = inr m.
Proof.
  induction dims as [|[dname len] dims IH]; intros Hknown; [done |].
  cbn [register_dims]. rewrite bool_decide_eq_true_2.
  - apply IH. intros d Hin. apply Hknown. csimpl. apply elem_of_cons. by right.
  - apply Hknown. csimpl. apply elem_of_cons. by left.
Qed.

Lemma record_data_dims_registers name vals dims data_shape m v m' :
  record_data_dims name vals dims data_shape m = inr (v, m') →
  length dims = ndim vals
  ∧ register_dims (zip dims (shape vals)) m = inr m'.
Proof.
  unfold record_data_dims. case_bool_decide as Hlen; [| done].
  destruct (register_dims _ _) as [e | m1]; [done |].
  by intros [= _ <-].
Qed.

(** C10 (amended): the time-dimension name is bound to a sequence equal to
    the index, and [pm.Data], whenever it returns, has been handed as many
    dimensions as the data has axes and has registered them in the model.
    Then the coordinate step hands the model back as it was and the data is
    declared in that unchanged context.  Whenever registration returns, the
    time dimension is still bound to the index, and the coordinate mapping
    is the old one with each data dimension whose length the model did not
    know added, bound to [None]: no coordinate is replaced or removed, and
    when the model knew every data dimension it comes back unchanged. *)
Theorem add_data_keeps_equal_time_coord
    TIME_DIM OBS_STATE_DIM DataVar pm_Data
    values index data_dims time_dim rest pymc_mod :
  (∀ name vals dims data_shape m v m',
     pm_Data name vals dims data_shape m = inr (v, m') →
     length dims = ndim vals
     ∧ register_dims (zip dims (shape vals)) m = inr m') →
  default [TIME_DIM; OBS_STATE_DIM] data_dims = time_dim :: rest →
  coords pymc_mod !! time_dim = Some (Some index) →
  bind_time_coord time_dim index pymc_mod = inr pymc_mod
  ∧ add_data_to_active_model TIME_DIM OBS_STATE_DIM DataVar pm_Data
      values index data_dims pymc_mod
    = declare_data DataVar pm_Data values (time_dim :: rest) pymc_mod
  ∧ ∀ v pymc_mod',
      add_data_to_active_model TIME_DIM OBS_STATE_DIM DataVar pm_Data
        values index data_dims pymc_mod
      = inr (v, pymc_mod') →
      coords pymc_mod' !! time_dim = Some (Some index)
      ∧ (∀ d, coords pymc_mod' !! d
              = if bool_decide (d ∈ time_dim :: rest
                                ∧ dim_lengths pymc_mod !! d = None)
                then Some None else coords pymc_mod !! d)
      ∧ coords pymc_mod ⊆ coords pymc_mod'
      ∧ ((∀ d, d ∈ time_dim :: rest → is_Some (dim_lengths pymc_mod !! d)) →
         pymc_mod' = pymc_mod).
Proof.
  intros Hdata Hdims Hbound.
  assert (bind_time_coord time_dim index pymc_mod = inr pymc_mod) as Hbind.
  { unfold bind_time_coord. rewrite Hbound.
    by rewrite (proj2 (np_array_equal_eq index index)). }
  assert (add_data_to_active_model TIME_DIM OBS_STATE_DIM DataVar pm_Data
            values index data_dims pymc_mod
          = declare_data DataVar pm_Data values (time_dim :: rest) pymc_mod)
    as Hadd.
  { unfold add_data_to_active_model. by rewrite Hdims, Hbind. }
  split; [done |]. split; [done |].
  intros v pymc_mod' Hret. rewrite Hadd in Hret. unfold declare_data in Hret.
  destruct (data_shape_hint values) as [e | data_shape]; [done |].
  apply Hdata in Hret as [Hlen Hreg].
  assert ((zip (time_dim :: rest) (shape values)).*1 = time_dim :: rest)
    as Hfst.
  { apply fst_zip. unfold ndim in Hlen. lia. }
  pose proof (register_dims_coords _ _ _ Hreg) as [Hco Hlab].
  rewrite Hfst in Hco, Hlab.
  assert (∀ d, coords pymc_mod' !! d
               = if bool_decide (d ∈ time_dim :: rest
                                 ∧ dim_lengths pymc_mod !! d = None)
                 then Some None else coords pymc_mod !! d) as Hco'.
  { intros d. apply Hco. }
  split; [| split; [done |]; split].
  - rewrite Hco'. rewrite bool_decide_eq_false_2; [done |].
    intros [Hin Hnone].
    destruct (Hlab time_dim index Hbound Hin) as [n Hn]. congruence.
  - apply map_subseteq_spec. intros d x Hd. rewrite Hco'.
    case_bool_decide as Hnew; [| done].
    destruct Hnew as [Hin Hnone]. destruct x as [found|]; [| done].
    destruct (Hlab d found Hd Hin) as [n Hn]. congruence.
  - intros Hknown. rewrite register_dims_known in Hreg.
    + by injection Hreg.
    + by rewrite Hfst.
Qed.

Lemma add_data_binds_time_coord_witness :
  add_data_to_active_model "time" "observed_state" data_decl record_data
    (mk_ndarray [2; 1]%nat [1%float; 2%float]) [IntLabel 0; IntLabel 1] None
    (mk_Model ∅ ∅)
  = inr (mk_data_decl "data" (mk_ndarray [2; 1]%nat [1%float; 2%float])
           ["time"; "observed_state"] [None; Some 1%nat],
         mk_Model (<["time" := Some [IntLabel 0; IntLabel 1]]> ∅)
           (<["time" := 2%nat]> ∅))
  ∧ add_data_to_active_model "time" "observed_state" data_decl record_data
      (mk_ndarray [2; 1]%nat [1%float; 2%float]) [IntLabel 0; IntLabel 1]
      (Some ["chain"; "observed_state"]) (mk_Model ∅ ∅)
    = inl (ValueError reserved_dim_message)
  ∧ add_data_to_active_model "time" "observed_state" data_decl record_data
      (mk_ndarray [2; 1]%nat [1%float; 2%float]) [IntLabel 0; IntLabel 1] None
      (mk_Model (<["time" := None]> ∅) ∅)
    = inr (mk_data_decl "data" (mk_ndarray [2; 1]%nat [1%float; 2%float])
             ["time"; "observed_state"] [None; Some 1%nat],
           mk_Model (<["time" := Some [IntLabel 0; IntLabel 1]]>
                       (<["time" := None]> ∅)) ∅)
  ∧ add_data_to_active_model "time" "observed_state" data_decl record_data
      (mk_ndarray [2; 1]%nat [1%float; 2%float]) [IntLabel 0; IntLabel 1] None
      (mk_Model (<["time" := Some [IntLabel 5; IntLabel 6]]> ∅) ∅)
    = inl (ValueError time_index_conflict_message).
Proof.
  split; [| split; [| split]].
  - rewrite (proj1 (add_data_binds_time_coord "time" "observed_state"
               data_decl record_data
               (mk_ndarray [2; 1]%nat [1%float; 2%float])
               [IntLabel 0; IntLabel 1] None "time" ["observed_state"]
               (mk_Model ∅ ∅)
               ltac:(reflexivity))
             ltac:(reflexivity)
             ltac:(apply (bool_decide_unpack _); vm_compute; exact I)).
    reflexivity.
  - apply (proj1 (proj2 (add_data_binds_time_coord "time" "observed_state"
               data_decl record_data
               (mk_ndarray [2; 1]%nat [1%float; 2%float])
               [IntLabel 0; IntLabel 1] (Some ["chain"; "observed_state"])
               "chain" ["observed_state"] (mk_Model ∅ ∅)
               ltac:(reflexivity)))).
    + reflexivity.
    + apply (bool_decide_unpack _). vm_compute. exact I.
  - rewrite (proj1 (proj2 (proj2 (add_data_binds_time_coord "time"
               "observed_state" data_decl record_data
               (mk_ndarray [2; 1]%nat [1%float; 2%float])
               [IntLabel 0; IntLabel 1] None "time" ["observed_state"]
               (mk_Model (<["time" := None]> ∅) ∅)
               ltac:(reflexivity)))))
      by (vm_compute; reflexivity).
    reflexivity.
  - apply (proj2 (proj2 (proj2 (add_data_binds_time_coord "time"
               "observed_state" data_decl record_data
               (mk_ndarray [2; 1]%nat [1%float; 2%float])
               [IntLabel 0; IntLabel 1] None "time" ["observed_state"]
               (mk_Model (<["time" := Some [IntLabel 5; IntLabel 6]]> ∅) ∅)
               ltac:(reflexivity))))
             [IntLabel 5; IntLabel 6]).
    + vm_compute. reflexivity.
    + discriminate.
Defined.

(** C6 as stated fails in two ways.  An absent time-dimension name is not
    always created: under the reserved name ["draw"] registration raises
    instead.  A name bound to the empty sequence is not replaced by the
    index: registration raises the value error of the conflict. *)
Lemma add_data_binds_time_coord_counterexample :
  add_data_to_active_model "time" "observed_state" data_decl record_data
    (mk_ndarray [2; 1]%nat [1%float; 2%float]) [IntLabel 0; IntLabel 1]
    (Some ["draw"; "observed_state"]) (mk_Model ∅ ∅)
  = inl (ValueError reserved_dim_message)
  ∧ add_data_to_active_model "time" "observed_state" data_decl record_data
      (mk_ndarray [2; 1]%nat [1%float; 2%float]) [IntLabel 0; IntLabel 1] None
      (mk_Model (<["time" := Some []]> ∅) ∅)
    = inl (ValueError time_index_conflict_message).
Proof. split; vm_compute; reflexivity. Qed.

Lemma add_data_keeps_equal_time_coord_witness :
  bind_time_coord "time" [IntLabel 0; IntLabel 1]
    (mk_Model {["time" := Some [IntLabel 0; IntLabel 1];
                "observed_state" := Some [IntLabel 7]]}
       {["time" := 2%nat; "observed_state" := 1%nat]})
  = inr (mk_Model {["time" := Some [IntLabel 0; IntLabel 1];
                    "observed_state" := Some [IntLabel 7]]}
           {["time" := 2%nat; "observed_state" := 1%nat]})
  ∧ add_data_to_active_model "time" "observed_state" data_decl
      record_data_dims
      (mk_ndarray [2; 1]%nat [1%float; 2%float]) [IntLabel 0; IntLabel 1] None
      (mk_Model {["time" := Some [IntLabel 0; IntLabel 1];
                  "observed_state" := Some [IntLabel 7]]}
         {["time" := 2%nat; "observed_state" := 1%nat]})
    = inr (mk_data_decl "data" (mk_ndarray [2; 1]%nat [1%float; 2%float])
             ["time"; "observed_state"] [None; Some 1%nat],
           mk_Model {["time" := Some [IntLabel 0; IntLabel 1];
                      "observed_state" := Some [IntLabel 7]]}
             {["time" := 2%nat; "observed_state" := 1%nat]}).
Proof.
  pose proof (add_data_keeps_equal_time_coord "time" "observed_state"
                data_decl record_data_dims
                (mk_ndarray [2; 1]%nat [1%float; 2%float])
                [IntLabel 0; IntLabel 1] None "time" ["observed_state"]
                (mk_Model {["time" := Some [IntLabel 0; IntLabel 1];
                            "observed_state" := Some [IntLabel 7]]}
                   {["time" := 2%nat; "observed_state" := 1%nat]})
                record_data_dims_registers
                ltac:(reflexivity)
                ltac:(vm_compute; reflexivity)) as (Hbind & Hadd & Hframe).
  split; [exact Hbind |].
  destruct (add_data_to_active_model "time" "observed_state" data_decl
              record_data_dims (mk_ndarray [2; 1]%nat [1%float; 2%float])
              [IntLabel 0; IntLabel 1] None
              (mk_Model {["time" := Some [IntLabel 0; IntLabel 1];
                          "observed_state" := Some [IntLabel 7]]}
                 {["time" := 2%nat; "observed_state" := 1%nat]}))
    as [e | [v m']] eqn:Hrun; [by vm_compute in Hrun |].
  destruct (Hframe v m' eq_refl) as (_ & _ & _ & Hsame).
  rewrite Hsame.
  - f_equal. f_equal. vm_compute in Hrun. by injection Hrun as <- _.
  - intros d Hd. apply (bool_decide_unpack _).
    repeat (apply elem_of_cons in Hd as [-> | Hd]);
      [vm_compute; exact I .. | by apply elem_of_nil in Hd].
Defined.

(** C10 as stated fails: in a model that binds the time dimension to the
    index and does not know the observation dimension, registration adds a
    coordinate, the observation dimension bound to [None]. *)
Lemma add_data_keeps_equal_time_coord_counterexample :
  add_data_to_active_model "time" "observed_state" data_decl record_data_dims
    (mk_ndarray [2; 1]%nat [1%float; 2%float]) [IntLabel 0; IntLabel 1] None
    (mk_Model {["time" := Some [IntLabel 0; IntLabel 1]]}
       {["time" := 2%nat]})
  = inr (mk_data_decl "data" (mk_ndarray [2; 1]%nat [1%float; 2%float])
           ["time"; "observed_state"] [None; Some 1%nat],
         mk_Model (<["observed_state" := None]>
                     {["time" := Some [IntLabel 0; IntLabel 1]]})
           (<["observed_state" := 1%nat]> {["time" := 2%nat]})).
Proof. vm_compute. reflexivity. Qed.

(** ** Further properties of the masker and the preprocessors *)

Lemma ma_filled_all_finite (l : list float) fill :
  Forall (λ x, np_isfinite x = true) l →
  zip_with (λ (masked : bool) x, if masked then fill else x)
    ((λ x, negb (np_isfinite x)) <$> l) l = l.
Proof.
  induction 1 as [|x l Hx _ IH]; [done |]. csimpl. by rewrite Hx, IH.
Qed.

Lemma nan_mask_all_finite (l : list float) :
  Forall (λ x, np_isfinite x = true) l →
  (λ x, negb (np_isfinite x)) <$> l = replicate (length l) false.
Proof.
  induction 1 as [|x l Hx _ IH]; [done |]. csimpl. by rewrite Hx, IH.
Qed.

Lemma np_any_replicate_false n sh :
  np_any (mk_ndarray sh (replicate n false)) = false.
Proof. unfold np_any. simpl. by induction n. Qed.

(** X1: the masker on a matrix with finite cells only: it hands back the matrix
    itself and a mask that is false throughout, and emits no warning. *)
Theorem mask_missing_values_all_finite MISSING_FILL values fill :
  (∀ x, x ∈ buffer values → np_isfinite x = true) →
  mask_missing_values_in_data MISSING_FILL values fill
  = ([], inr (values,
              mk_ndarray (shape values)
                (replicate (length (buffer values)) false))).
Proof.
  intros Hfin%Forall_forall. destruct values as [sh l]. simpl in *.
  unfold mask_missing_values_in_data, masked_invalid, ma_filled, nd_map.
  simpl. rewrite ma_filled_all_finite, nan_mask_all_finite by done.
  by rewrite np_any_replicate_false.
Qed.

Lemma mask_missing_values_all_finite_witness :
  mask_missing_values_in_data (-9999)%float
    (mk_ndarray [3; 1]%nat [1%float; (-9999)%float; 3%float]) None
  = ([], inr (mk_ndarray [3; 1]%nat [1%float; (-9999)%float; 3%float],
              mk_ndarray [3; 1]%nat [false; false; false])).
Proof.
  apply (mask_missing_values_all_finite (-9999)%float
           (mk_ndarray [3; 1]%nat [1%float; (-9999)%float; 3%float]) None).
  intros x Hx. simpl in Hx.
  repeat (apply elem_of_cons in Hx as [-> | Hx]; [vm_compute; reflexivity |]).
  by apply elem_of_nil in Hx.
Defined.

(** X2: whenever the masker returns, it has emitted the imputation warning, and
    nothing else, exactly when some cell was masked, that is when some cell
    of the input is NaN or infinite. *)
Theorem mask_missing_values_warning
    MISSING_FILL values fill w filled nan_mask :
  mask_missing_values_in_data MISSING_FILL values fill
  = (w, inr (filled, nan_mask)) →
  w = (if np_any nan_mask then [ImputationWarning impute_message] else [])
  ∧ (np_any nan_mask = true ↔ ∃ x, x ∈ buffer values ∧ invalid x = true).
Proof.
  intros Hret. pose proof Hret as [_ ->]%masker_returns.
  split; [| apply nan_mask_any].
  revert Hret. unfold mask_missing_values_in_data.
  destruct (np_any (ma_mask (masked_invalid values)));
    [destruct (np_any (nd_eq_scalar values (default MISSING_FILL fill)))|];
    simpl; intros ?; by simplify_eq.
Qed.

Lemma mask_missing_values_warning_witness :
  [ImputationWarning impute_message]
  = (if np_any (mk_ndarray [2; 1]%nat [false; true])
     then [ImputationWarning impute_message] else [])
  ∧ (np_any (mk_ndarray [2; 1]%nat [false; true]) = true
     ↔ ∃ x, x ∈ [1%float; nan] ∧ invalid x = true).
Proof.
  apply (mask_missing_values_warning (-9999)%float
           (mk_ndarray [2; 1]%nat [1%float; nan]) None
           [ImputationWarning impute_message]
           (mk_ndarray [2; 1]%nat [1%float; (-9999)%float])
           (mk_ndarray [2; 1]%nat [false; true])).
  vm_compute. reflexivity.
Defined.

Lemma validate_no_warnings data_shape n_obs obs_coords check col_names :
  (_validate_data_shape data_shape n_obs obs_coords check col_names).1 = [].
Proof.
  unfold _validate_data_shape, shape_last, raise_if.
  case_bool_decide; [done |]. simpl.
  destruct (last data_shape) as [c|]; [| done]. simpl.
  case_bool_decide; [done |]. simpl.
  destruct check; [| done].
  destruct obs_coords as [oc|]; [| done]. by case_bool_decide.
Qed.

Lemma validate_returns_eq data_shape n_obs obs_coords check col_names :
  returns (_validate_data_shape data_shape n_obs obs_coords check col_names) tt →
  _validate_data_shape data_shape n_obs obs_coords check col_names
  = ([], inr tt).
Proof.
  intros Hret.
  pose proof (validate_no_warnings data_shape n_obs obs_coords check col_names)
    as Hw.
  unfold returns, outcome in Hret.
  destruct (_validate_data_shape _ _ _ _ _) as [ws r]. simpl in *. congruence.
Qed.

(** X3: the plain-array variant: on a matrix with [n_obs] columns it returns
    the matrix with the index 0..n-1, and warns that no time index was
    found exactly when observation coordinates were given. *)
Theorem preprocess_numpy_data_result data obs_coords rows found :
  shape data = [rows; found] →
  preprocess_numpy_data data (Z.of_nat found) obs_coords
  = (match obs_coords with
     | Some _ => [UserWarning NO_TIME_INDEX_WARNING]
     | None => []
     end,
     inr (data, ArangeIndex (np_arange rows))).
Proof.
  intros Hshape. unfold preprocess_numpy_data. rewrite Hshape.
  rewrite validate_returns_eq
    by (unfold returns; by rewrite validate_shape_ok).
  by destruct obs_coords.
Qed.

Lemma preprocess_numpy_data_result_witness :
  preprocess_numpy_data (mk_ndarray [2; 1]%nat [1%float; nan]) 1
    (Some ["height"])
  = ([UserWarning NO_TIME_INDEX_WARNING],
     inr (mk_ndarray [2; 1]%nat [1%float; nan], ArangeIndex [0; 1])).
Proof.
  apply (preprocess_numpy_data_result (mk_ndarray [2; 1]%nat [1%float; nan])
           (Some ["height"]) 2 1).
  reflexivity.
Defined.

(** X4: a table whose plain row index is not of an integer dtype, and whose
    shape passes the validator, is refused with the index error. *)
Theorem preprocess_pandas_non_integer_index
    inferred_freq data n_obs obs_coords check :
  (∃ labels, index (as_frame data) = FloatIndex labels)
  ∨ (∃ labels, index (as_frame data) = ObjectIndex labels) →
  returns (_validate_data_shape (df_shape (as_frame data)) n_obs obs_coords
             check (Some (columns (as_frame data)))) tt →
  raises (preprocess_pandas_data inferred_freq data n_obs obs_coords check)
    (IndexError not_integer_index_message).
Proof.
  intros Hidx Hvalid. unfold raises.
  rewrite preprocess_pandas_validated by done.
  by destruct Hidx as [[labels ->] | [labels ->]].
Qed.

Lemma preprocess_pandas_non_integer_index_witness :
  raises (preprocess_pandas_data (λ _, None)
            (Frame (mk_DataFrame ["height"] (ObjectIndex ["a"; "b"])
                      [1%float; 2%float]))
            1 None false)
    (IndexError not_integer_index_message).
Proof.
  apply (preprocess_pandas_non_integer_index (λ _, None)
           (Frame (mk_DataFrame ["height"] (ObjectIndex ["a"; "b"])
                     [1%float; 2%float]))
           1 None false).
  - right. by exists ["a"; "b"].
  - vm_compute. reflexivity.
Defined.

(** X5: a table with calendar-timestamp labels whose shape passes the
    validator: the values come back with the table's own index; a missing
    frequency is replaced by the inferred one, with a warning that it was
    missing, and a recorded frequency is kept without any warning. *)
Theorem preprocess_pandas_datetime_index
    inferred_freq data n_obs obs_coords check stamps freq :
  index (as_frame data) = DatetimeIndex stamps freq →
  returns (_validate_data_shape (df_shape (as_frame data)) n_obs obs_coords
             check (Some (columns (as_frame data)))) tt →
  preprocess_pandas_data inferred_freq data n_obs obs_coords check
  = (match freq with
     | None => [UserWarning NO_FREQ_INFO_WARNING]
     | Some _ => []
     end,
     inr (df_values (as_frame data),
          DatetimeLabels stamps
            (match freq with
             | None => inferred_freq stamps
             | Some f => Some f
             end))).
Proof.
  intros Hidx Hvalid%validate_returns_eq.
  unfold preprocess_pandas_data. rewrite Hvalid, Hidx. by destruct freq.
Qed.

Lemma preprocess_pandas_datetime_index_witness :
  preprocess_pandas_data (λ _, Some "YS-JAN")
    (Series (Some "height") (DatetimeIndex [0; 31536000000000000] None)
       [1%float; 2%float])
    1 (Some ["height"]) true
  = ([UserWarning NO_FREQ_INFO_WARNING],
     inr (mk_ndarray [2; 1]%nat [1%float; 2%float],
          DatetimeLabels [0; 31536000000000000] (Some "YS-JAN"))).
Proof.
  apply (preprocess_pandas_datetime_index (λ _, Some "YS-JAN")
           (Series (Some "height") (DatetimeIndex [0; 31536000000000000] None)
              [1%float; 2%float])
           1 (Some ["height"]) true [0; 31536000000000000] None).
  - reflexivity.
  - vm_compute. reflexivity.
Defined.

(** ** The two ingestion scenarios of the specification *)

(** A one-column table with the default index 0..9 and no NaN, one series
    expected: the values come back unchanged with the index 0..9, and the
    mask is false throughout. *)
Example scenario_complete_table :
  preprocess_pandas_data (λ _, None)
    (Frame (mk_DataFrame ["height"] (RangeIndex 0 10 1)
              [0%float; 1%float; 2%float; 3%float; 4%float;
               5%float; 6%float; 7%float; 8%float; 9%float]))
    1 None false
  = ([], inr (mk_ndarray [10; 1]%nat
                [0%float; 1%float; 2%float; 3%float; 4%float;
                 5%float; 6%float; 7%float; 8%float; 9%float],
              ArangeIndex [0; 1; 2; 3; 4; 5; 6; 7; 8; 9]))
  ∧ mask_missing_values_in_data (-9999)%float
      (mk_ndarray [10; 1]%nat
         [0%float; 1%float; 2%float; 3%float; 4%float;
          5%float; 6%float; 7%float; 8%float; 9%float]) None
    = ([], inr (mk_ndarray [10; 1]%nat
                  [0%float; 1%float; 2%float; 3%float; 4%float;
                   5%float; 6%float; 7%float; 8%float; 9%float],
                mk_ndarray [10; 1]%nat (replicate 10 false))).
Proof. split; vm_compute; reflexivity. Qed.

(** The same table with NaN at row 3 and the sentinel -9999: the filled
    value at row 3 is the sentinel, the mask is true there only, and the
    imputation warning is emitted. *)
Example scenario_missing_row :
  mask_missing_values_in_data 0%float
    (mk_ndarray [10; 1]%nat
       [0%float; 1%float; 2%float; nan; 4%float;
        5%float; 6%float; 7%float; 8%float; 9%float]) (Some (-9999)%float)
  = ([ImputationWarning impute_message],
     inr (mk_ndarray [10; 1]%nat
            [0%float; 1%float; 2%float; (-9999)%float; 4%float;
             5%float; 6%float; 7%float; 8%float; 9%float],
          mk_ndarray [10; 1]%nat
            [false; false; false; true; false;
             false; false; false; false; false])).
Proof. vm_compute. reflexivity. Qed.

(** ** The tensor variant and the entry point *)

Lemma py_bind_lift_inr {A B} (a : A) (k : A → py B) :
  py_bind (py_lift (inr a)) k = k a.
Proof. unfold py_bind, py_lift. by destruct (k a). Qed.

Lemma py_bind_ret_l {A B} (a : A) (k : A → py B) :
  py_bind (py_ret a) k = k a.
Proof. apply py_bind_lift_inr. Qed.

(** X6: a tensor variable whose shape and value resolve to those of an
    array is preprocessed exactly as the array is: same values, same
    synthetic index, same warnings, same errors. *)
Theorem preprocess_tensor_data_as_array
    (t : TensorVariable) (a : ndarray float) n_obs obs_coords :
  tv_shape_eval t = inr (shape a) →
  tv_eval t = inr a →
  preprocess_tensor_data t n_obs obs_coords
  = preprocess_numpy_data a n_obs obs_coords.
Proof.
  intros Hshape Heval. unfold preprocess_tensor_data, preprocess_numpy_data.
  rewrite Hshape, Heval, py_bind_lift_inr.
  f_equal.
Qed.

Lemma preprocess_tensor_data_as_array_witness :
  preprocess_tensor_data
    (mk_TensorVariable (Some "data") (inr [2; 1]%nat)
       (inr (mk_ndarray [2; 1]%nat [1%float; nan])))
    1 (Some ["height"])
  = preprocess_numpy_data (mk_ndarray [2; 1]%nat [1%float; nan]) 1
      (Some ["height"]).
Proof.
  apply (preprocess_tensor_data_as_array
           (mk_TensorVariable (Some "data") (inr [2; 1]%nat)
              (inr (mk_ndarray [2; 1]%nat [1%float; nan])))
           (mk_ndarray [2; 1]%nat [1%float; nan]) 1 (Some ["height"]));
    reflexivity.
Defined.

(** Without the column-name check the validator does not look at the
    column names. *)
Lemma validate_unchecked_names data_shape n_obs obs_coords names names' :
  _validate_data_shape data_shape n_obs obs_coords false names
  = _validate_data_shape data_shape n_obs obs_coords false names'.
Proof. done. Qed.

Lemma preprocess_pandas_unchecked_names
    inferred_freq (d : DataFrame) names n_obs obs_coords :
  length names = length (columns d) →
  preprocess_pandas_data inferred_freq
    (Frame (mk_DataFrame names (index d) (cells d))) n_obs obs_coords false
  = preprocess_pandas_data inferred_freq (Frame d) n_obs obs_coords false.
Proof.
  intros Hlen. unfold preprocess_pandas_data, df_values, df_shape. simpl.
  rewrite Hlen.
  by rewrite (validate_unchecked_names _ _ _ (Some names) (Some (columns d))).
Qed.

(** X7: the entry point never checks column names: a table registers
    exactly as the same table under any other column names, so also when
    none of the expected labels is among its columns. *)
Theorem register_data_ignores_column_names
    MISSING_FILL inferred_freq TIME_DIM OBS_STATE_DIM DataVar pm_Data
    (d : DataFrame) names n_obs obs_coords register_data fill data_dims
    pymc_mod :
  length names = length (columns d) →
  register_data_with_pymc MISSING_FILL inferred_freq TIME_DIM OBS_STATE_DIM
    DataVar pm_Data
    (PandasData (Frame (mk_DataFrame names (index d) (cells d))))
    n_obs obs_coords register_data fill data_dims pymc_mod
  = register_data_with_pymc MISSING_FILL inferred_freq TIME_DIM OBS_STATE_DIM
      DataVar pm_Data (PandasData (Frame d))
      n_obs obs_coords register_data fill data_dims pymc_mod.
Proof.
  intros Hlen. unfold register_data_with_pymc.
  by rewrite preprocess_pandas_unchecked_names.
Qed.

Lemma register_data_ignores_column_names_witness :
  register_data_with_pymc (-9999)%float (λ _, None) "time" "observed_state"
    data_decl record_data
    (PandasData (Frame (mk_DataFrame ["x"; "y"] (RangeIndex 0 1 1)
                          [1%float; 2%float])))
    2 (Some ["a"; "b"]) false None None (mk_Model ∅ ∅)
  = register_data_with_pymc (-9999)%float (λ _, None) "time" "observed_state"
      data_decl record_data
      (PandasData (Frame (mk_DataFrame ["a"; "b"] (RangeIndex 0 1 1)
                            [1%float; 2%float])))
      2 (Some ["a"; "b"]) false None None (mk_Model ∅ ∅).
Proof.
  apply (register_data_ignores_column_names (-9999)%float (λ _, None)
           "time" "observed_state" data_decl record_data
           (mk_DataFrame ["a"; "b"] (RangeIndex 0 1 1) [1%float; 2%float])
           ["x"; "y"] 2 (Some ["a"; "b"]) false None None (mk_Model ∅ ∅)).
  reflexivity.
Defined.

(** X8: with registration switched off, the entry point hands the model
    back as it was and never declares anything in it.  The data it returns
    is the shared variable ["data"] holding the filled values: what the
    masker returns for the preprocessed values, so those values with every
    NaN and every infinity set to the sentinel, of the shape of the mask,
    which is the masker's too.  The same result comes out in any other
    model, under any other dimension names. *)
Theorem register_data_off_keeps_model
    MISSING_FILL inferred_freq TIME_DIM OBS_STATE_DIM DataVar pm_Data
    data n_obs obs_coords fill data_dims pymc_mod ws r nan_mask pymc_mod' :
  register_data_with_pymc MISSING_FILL inferred_freq TIME_DIM OBS_STATE_DIM
    DataVar pm_Data data n_obs obs_coords false fill data_dims pymc_mod
  = (ws, inr (r, nan_mask, pymc_mod')) →
  pymc_mod' = pymc_mod
  ∧ (∃ filled, r = SharedData "data" filled ∧ shape filled = shape nan_mask)
  ∧ (∃ values index filled,
       outcome
         match data with
         | TensorData t => preprocess_tensor_data t n_obs obs_coords
         | ArrayData a => preprocess_numpy_data a n_obs obs_coords
         | PandasData d =>
             preprocess_pandas_data inferred_freq d n_obs obs_coords false
         | OtherData => py_raise (ValueError unknown_container_message)
         end
       = inr (values, index)
       ∧ outcome (mask_missing_values_in_data MISSING_FILL values fill)
         = inr (filled, nan_mask)
       ∧ r = SharedData "data" filled
       ∧ shape filled = shape values
       ∧ length (buffer filled) = length (buffer values)
       ∧ ∀ k x, buffer values !! k = Some x →
           buffer filled !! k
           = Some (if invalid x then default MISSING_FILL fill else x))
  ∧ ∀ data_dims2 pymc_mod2,
      register_data_with_pymc MISSING_FILL inferred_freq TIME_DIM
        OBS_STATE_DIM DataVar pm_Data data n_obs obs_coords false fill
        data_dims2 pymc_mod2
      = (ws, inr (r, nan_mask, pymc_mod2)).
Proof.
  unfold register_data_with_pymc.
  set (pre := match data with
              | TensorData t => preprocess_tensor_data t n_obs obs_coords
              | ArrayData a => preprocess_numpy_data a n_obs obs_coords
              | PandasData d =>
                  preprocess_pandas_data inferred_freq d n_obs obs_coords false
              | OtherData => py_raise (ValueError unknown_container_message)
              end).
  destruct pre as [w1 [e | [values index]]]; simpl; [discriminate |].
  destruct (mask_missing_values_in_data MISSING_FILL values fill)
    as [w2 [e | [filled mask]]] eqn:Hmask; simpl; [discriminate |].
  intros [= <- <- <- <-].
  pose proof Hmask as [-> ->]%masker_returns.
  split; [done |]. split; [by eexists |]. split; [| done].
  exists values, index,
    (ma_filled (masked_invalid values) (default MISSING_FILL fill)).
  split; [done |]. split; [unfold outcome; by rewrite Hmask |].
  split; [done |]. split; [done |]. split.
  - simpl. rewrite length_zip_with, length_fmap. lia.
  - intros k x Hx. by rewrite filled_lookup, Hx.
Qed.

Lemma register_data_off_keeps_model_witness :
  mk_Model ∅ ∅ = mk_Model ∅ ∅
  ∧ (∃ filled,
       SharedData (DataVar := data_decl) "data"
         (mk_ndarray [2; 1]%nat [1%float; (-9999)%float])
       = SharedData "data" filled
       ∧ shape filled = shape (mk_ndarray [2; 1]%nat [false; true]))
  ∧ (∃ values index filled,
       outcome (preprocess_numpy_data (mk_ndarray [2; 1]%nat [1%float; nan])
                  1 None)
       = inr (values, index)
       ∧ outcome (mask_missing_values_in_data (-9999)%float values None)
         = inr (filled, mk_ndarray [2; 1]%nat [false; true])
       ∧ SharedData (DataVar := data_decl) "data"
           (mk_ndarray [2; 1]%nat [1%float; (-9999)%float])
         = SharedData "data" filled
       ∧ shape filled = shape values
       ∧ length (buffer filled) = length (buffer values)
       ∧ ∀ k x, buffer values !! k = Some x →
           buffer filled !! k
           = Some (if invalid x then default (-9999)%float None else x))
  ∧ ∀ data_dims2 pymc_mod2,
      register_data_with_pymc (-9999)%float (λ _, None) "time"
        "observed_state" data_decl record_data
        (ArrayData (mk_ndarray [2; 1]%nat [1%float; nan])) 1 None false None
        data_dims2 pymc_mod2
      = ([ImputationWarning impute_message],
         inr (SharedData "data" (mk_ndarray [2; 1]%nat [1%float; (-9999)%float]),
              mk_ndarray [2; 1]%nat [false; true], pymc_mod2)).
Proof.
  apply (register_data_off_keeps_model (-9999)%float (λ _, None) "time"
           "observed_state" data_decl record_data
           (ArrayData (mk_ndarray [2; 1]%nat [1%float; nan])) 1 None None None
           (mk_Model ∅ ∅)).
  vm_compute. reflexivity.
Defined.

Lemma data_shape_hint_matrix (values : ndarray float) rows cols :
  shape values = [rows; cols] →
  data_shape_hint values = inr [None; Some cols].
Proof.
  intros Hshape. unfold data_shape_hint, ndim. rewrite Hshape. simpl.
  case_bool_decide; simpl; by subst.
Qed.

Lemma add_data_fresh_time_dim
    TIME_DIM OBS_STATE_DIM DataVar pm_Data values index pymc_mod :
  coords pymc_mod !! TIME_DIM = None →
  TIME_DIM ∉ reserved_dim_names →
  add_data_to_active_model TIME_DIM OBS_STATE_DIM DataVar pm_Data
    values index None pymc_mod
  = declare_data DataVar pm_Data values [TIME_DIM; OBS_STATE_DIM]
      (mk_Model (<[TIME_DIM := Some index]> (coords pymc_mod))
         (<[TIME_DIM := length index]> (dim_lengths pymc_mod))).
Proof.
  intros Hfree Hres. unfold add_data_to_active_model, bind_time_coord. simpl.
  by rewrite Hfree, add_coord_fresh.
Qed.

Lemma np_arange_length n : length (np_arange n) = n.
Proof. unfold np_arange. by rewrite length_fmap, length_seq. Qed.

(** X9: registering a numpy matrix with [n_obs] columns that the masker
    accepts, in a model where the default time dimension is not bound yet:
    the time coordinate is created as the labels 0..n-1, with length n, and
    the filled values are declared as ["data"] over the two default
    dimensions with the shape hint (None, n_obs); the warnings are those of
    preprocessing followed by those of masking. *)
Theorem register_array_creates_range_coord
    MISSING_FILL inferred_freq TIME_DIM OBS_STATE_DIM DataVar pm_Data
    (a : ndarray float) rows found obs_coords fill pymc_mod w filled nan_mask :
  shape a = [rows; found] →
  mask_missing_values_in_data MISSING_FILL a fill = (w, inr (filled, nan_mask)) →
  coords pymc_mod !! TIME_DIM = None →
  TIME_DIM ∉ reserved_dim_names →
  register_data_with_pymc MISSING_FILL inferred_freq TIME_DIM OBS_STATE_DIM
    DataVar pm_Data (ArrayData a) (Z.of_nat found) obs_coords true fill None
    pymc_mod
  = (match obs_coords with
     | Some _ => [UserWarning NO_TIME_INDEX_WARNING]
     | None => []
     end ++ w,
     match pm_Data "data" filled [TIME_DIM; OBS_STATE_DIM]
             [None; Some found]
             (mk_Model
                (<[TIME_DIM := Some (IntLabel <$> np_arange rows)]>
                   (coords pymc_mod))
                (<[TIME_DIM := rows]> (dim_lengths pymc_mod))) with
     | inl e => inl e
     | inr (v, pymc_mod') => inr (ModelData v, nan_mask, pymc_mod')
     end).
Proof.
  intros Hshape Hmask Hfree Hres. unfold register_data_with_pymc.
  rewrite (preprocess_numpy_data_result a obs_coords rows found Hshape).
  pose proof Hmask as [Hfilled _]%masker_returns.
  assert (shape filled = [rows; found]) as Hfs by (by rewrite Hfilled).
  unfold py_bind. rewrite Hmask.
  rewrite add_data_fresh_time_dim by done.
  unfold declare_data. rewrite (data_shape_hint_matrix filled rows found Hfs).
  simpl. rewrite length_fmap, np_arange_length.
  destruct (pm_Data _ _ _ _ _) as [e | [v m']]; simpl;
    by rewrite app_nil_r.
Qed.

Lemma register_array_creates_range_coord_witness :
  register_data_with_pymc (-9999)%float (λ _, None) "time" "observed_state"
    data_decl record_data
    (ArrayData (mk_ndarray [2; 1]%nat [1%float; nan])) 1 (Some ["height"])
    true None None (mk_Model ∅ ∅)
  = ([UserWarning NO_TIME_INDEX_WARNING] ++ [ImputationWarning impute_message],
     match record_data "data" (mk_ndarray [2; 1]%nat [1%float; (-9999)%float])
             ["time"; "observed_state"] [None; Some 1%nat]
             (mk_Model
                (<["time" := Some (IntLabel <$> np_arange 2)]> ∅)
                (<["time" := 2%nat]> ∅)) with
     | inl e => inl e
     | inr (v, pymc_mod') =>
         inr (ModelData v, mk_ndarray [2; 1]%nat [false; true], pymc_mod')
     end).
Proof.
  apply (register_array_creates_range_coord (-9999)%float (λ _, None)
           "time" "observed_state" data_decl record_data
           (mk_ndarray [2; 1]%nat [1%float; nan]) 2 1 (Some ["height"]) None
           (mk_Model ∅ ∅) [ImputationWarning impute_message]
           (mk_ndarray [2; 1]%nat [1%float; (-9999)%float])
           (mk_ndarray [2; 1]%nat [false; true])).
  - reflexivity.
  - vm_compute. reflexivity.
  - reflexivity.
  - apply (bool_decide_unpack _). vm_compute. exact I.
Defined.

(** * Properties of the test utilities *)

(** ** Rows of missing data *)

Lemma eqb_nan_l (x : float) : PrimFloat.eqb nan x = false.
Proof.
  rewrite FloatAxioms.eqb_spec.
  replace (FloatOps.Prim2SF nan) with SpecFloat.S754_nan
    by (vm_compute; reflexivity).
  reflexivity.
Qed.

Lemma cell_row (rs i j : nat) : (j < rs)%nat → Nat.div (i * rs + j) rs = i.
Proof.
  intros Hj. symmetry. apply (Nat.div_unique _ _ _ j); [done | lia].
Qed.

Lemma set_rows_in_range (data : ndarray float) rows v n rest :
  shape data = n :: rest →
  Forall (λ i, (i < n)%nat) rows →
  set_rows data rows v
  = inr (mk_ndarray (shape data)
           (imap (λ k x,
              if bool_decide (Nat.div k (row_size (shape data)) ∈ rows)
              then v else x)
              (buffer data))).
Proof.
  intros Hshape Hrows. unfold set_rows. rewrite Hshape.
  destruct (list_find _ rows) as [[k i]|] eqn:Hfind; [| done].
  apply list_find_Some in Hfind as (Hk & Hi & _).
  rewrite Forall_lookup in Hrows. by apply Hrows in Hk.
Qed.

Lemma add_missing_data_returns
    rng_choice (data : ndarray float) n_missing n rest missing_idx :
  shape data = n :: rest →
  rng_choice n n_missing = inr missing_idx →
  Forall (λ i, (i < n)%nat) missing_idx →
  add_missing_data rng_choice data n_missing
  = inr (mk_ndarray (shape data)
           (imap (λ k x,
              if bool_decide (Nat.div k (row_size (shape data)) ∈ missing_idx)
              then nan else x)
              (buffer data))).
Proof.
  intros Hshape Hdraw Hrange. unfold add_missing_data.
  rewrite Hshape, Hdraw, <- Hshape.
  by apply (set_rows_in_range data missing_idx nan n rest).
Qed.

(** X10: when the generator draws positions on the first axis,
    [add_missing_data] returns an array of the same shape and size in which
    every cell of a drawn row is NaN and every other cell is as it was. *)
Theorem add_missing_data_rows
    rng_choice (data : ndarray float) n_missing n rest missing_idx :
  shape data = n :: rest →
  rng_choice n n_missing = inr missing_idx →
  Forall (λ i, (i < n)%nat) missing_idx →
  ∃ data',
    add_missing_data rng_choice data n_missing = inr data'
    ∧ shape data' = shape data
    ∧ length (buffer data') = length (buffer data)
    ∧ ∀ i j x,
        (j < row_size (shape data))%nat →
        buffer data !! (i * row_size (shape data) + j)%nat = Some x →
        buffer data' !! (i * row_size (shape data) + j)%nat
        = Some (if bool_decide (i ∈ missing_idx) then nan else x).
Proof.
  intros Hshape Hdraw Hrange. eexists. split.
  { by apply (add_missing_data_returns _ _ _ n rest missing_idx). }
  simpl. split; [done |]. split; [by rewrite length_imap |].
  intros i j x Hj Hx. by rewrite list_lookup_imap, Hx, cell_row.
Qed.

Lemma add_missing_data_rows_witness :
  ∃ data',
    add_missing_data (λ _ _, inr [1%nat])
      (mk_ndarray [3; 2]%nat
         [0%float; 1%float; 2%float; 3%float; 4%float; 5%float]) 1
    = inr data'
    ∧ shape data' = [3; 2]%nat
    ∧ length (buffer data') = 6%nat
    ∧ ∀ i j x,
        (j < 2)%nat →
        [0%float; 1%float; 2%float; 3%float; 4%float; 5%float]
          !! (i * 2 + j)%nat = Some x →
        buffer data' !! (i * 2 + j)%nat
        = Some (if bool_decide (i ∈ [1%nat]) then nan else x).
Proof.
  apply (add_missing_data_rows (λ _ _, inr [1%nat])
           (mk_ndarray [3; 2]%nat
              [0%float; 1%float; 2%float; 3%float; 4%float; 5%float])
           1 3 [2%nat] [1%nat]).
  - reflexivity.
  - reflexivity.
  - repeat constructor.
Defined.

Lemma invalid_nan : invalid nan = true.
Proof. reflexivity. Qed.

Lemma np_any_false_forall {A} (f : A → bool) (a : ndarray A) :
  (∀ x, x ∈ buffer a → f x = false) → np_any (nd_map f a) = false.
Proof.
  intros Hall. destruct (np_any (nd_map f a)) eqn:Hany; [| done].
  apply np_any_nd_map in Hany as (x & Hin & Hx).
  rewrite (Hall x Hin) in Hx. discriminate.
Qed.

(** X11: rows of missing data and the masker.  When the cells of the data
    are all finite and none of them equals the sentinel, the masker accepts
    the array that [add_missing_data] returns: its mask is true exactly on
    the drawn rows, the filled array holds the sentinel on those rows and
    the data elsewhere. *)
Theorem add_missing_data_then_mask
    rng_choice MISSING_FILL (data : ndarray float) n_missing n rest
    missing_idx fill :
  shape data = n :: rest →
  rng_choice n n_missing = inr missing_idx →
  Forall (λ i, (i < n)%nat) missing_idx →
  (∀ x, x ∈ buffer data →
        np_isfinite x = true
        ∧ PrimFloat.eqb x (default MISSING_FILL fill) = false) →
  ∃ data' w filled nan_mask,
    add_missing_data rng_choice data n_missing = inr data'
    ∧ mask_missing_values_in_data MISSING_FILL data' fill
      = (w, inr (filled, nan_mask))
    ∧ shape nan_mask = shape data
    ∧ ∀ i j x,
        (j < row_size (shape data))%nat →
        buffer data !! (i * row_size (shape data) + j)%nat = Some x →
        buffer nan_mask !! (i * row_size (shape data) + j)%nat
        = Some (bool_decide (i ∈ missing_idx))
        ∧ buffer filled !! (i * row_size (shape data) + j)%nat
          = Some (if bool_decide (i ∈ missing_idx)
                  then default MISSING_FILL fill else x).
Proof.
  intros Hshape Hdraw Hrange Hclean.
  pose proof (add_missing_data_returns rng_choice data n_missing n rest
                missing_idx Hshape Hdraw Hrange) as Hadd.
  set (data' := mk_ndarray (shape data)
         (imap (λ k x,
            if bool_decide (Nat.div k (row_size (shape data)) ∈ missing_idx)
            then nan else x)
            (buffer data))) in *.
  assert (∀ y, y ∈ buffer data' →
               PrimFloat.eqb y (default MISSING_FILL fill) = false) as Hno.
  { intros y [k Hk]%list_elem_of_lookup. simpl in Hk.
    rewrite list_lookup_imap in Hk.
    destruct (buffer data !! k) as [x|] eqn:Hx; [| done]. simpl in Hk.
    injection Hk as <-. case_bool_decide; [apply eqb_nan_l |].
    apply Hclean. by eapply list_elem_of_lookup_2. }
  destruct (mask_missing_values_in_data MISSING_FILL data' fill)
    as [w [e | [filled nan_mask]]] eqn:Hmask.
  { exfalso.
    assert (outcome (mask_missing_values_in_data MISSING_FILL data' fill)
            = inl e) as Hout by (by rewrite Hmask).
    rewrite masker_outcome in Hout.
    unfold nd_eq_scalar in Hout.
    rewrite (np_any_false_forall _ data' Hno), andb_false_r in Hout.
    discriminate. }
  exists data', w, filled, nan_mask. split; [done |]. split; [done |].
  apply masker_returns in Hmask as [-> ->].
  split; [done |].
  intros i j x Hj Hx.
  rewrite nan_mask_lookup, filled_lookup. simpl.
  rewrite list_lookup_imap, Hx, cell_row by done. simpl.
  case_bool_decide; [by rewrite invalid_nan |].
  assert (invalid x = false) as ->; [| done].
  rewrite <- invalid_isfinite.
  by rewrite (proj1 (Hclean x (list_elem_of_lookup_2 _ _ _ Hx))).
Qed.

Lemma add_missing_data_then_mask_witness :
  ∃ data' w filled nan_mask,
    add_missing_data (λ _ _, inr [1%nat])
      (mk_ndarray [3; 2]%nat
         [0%float; 1%float; 2%float; 3%float; 4%float; 5%float]) 1
    = inr data'
    ∧ mask_missing_values_in_data (-9999)%float data' None
      = (w, inr (filled, nan_mask))
    ∧ shape nan_mask = [3; 2]%nat
    ∧ ∀ i j x,
        (j < 2)%nat →
        [0%float; 1%float; 2%float; 3%float; 4%float; 5%float]
          !! (i * 2 + j)%nat = Some x →
        buffer nan_mask !! (i * 2 + j)%nat = Some (bool_decide (i ∈ [1%nat]))
        ∧ buffer filled !! (i * 2 + j)%nat
          = Some (if bool_decide (i ∈ [1%nat]) then (-9999)%float else x).
Proof.
  apply (add_missing_data_then_mask (λ _ _, inr [1%nat]) (-9999)%float
           (mk_ndarray [3; 2]%nat
              [0%float; 1%float; 2%float; 3%float; 4%float; 5%float])
           1 3 [2%nat] [1%nat] None).
  - reflexivity.
  - reflexivity.
  - repeat constructor.
  - intros x Hx. simpl in Hx.
    repeat (apply elem_of_cons in Hx as [-> | Hx];
            [split; vm_compute; reflexivity |]).
    by apply elem_of_nil in Hx.
Defined.

(** ** Expected shapes of the filter outputs *)

Lemma str_split_length sep s :
  length (str_split sep s) = S (str_count sep s).
Proof.
  induction s as [|c s IH]; [done |]. simpl.
  case_bool_decide; simpl; [by rewrite IH |].
  destruct (str_split sep s); simpl in *; [lia | done].
Qed.

Lemma str_split_no_sep sep s :
  str_count sep s = 0%nat → str_split sep s = [s].
Proof.
  induction s as [|c s IH]; [done |]. simpl.
  case_bool_decide; [done |]. intros Hs. by rewrite IH.
Qed.

Lemma str_split_app sep a b :
  str_count sep a = 0%nat →
  str_split sep (a +:+ String sep b) = a :: str_split sep b.
Proof.
  induction a as [|c a IH]; simpl.
  - intros _. by rewrite bool_decide_eq_true_2.
  - case_bool_decide; [done |]. intros Ha. by rewrite IH.
Qed.

Lemma str_split_two sep a b :
  str_count sep a = 0%nat → str_count sep b = 0%nat →
  str_split sep (a +:+ String sep b) = [a; b].
Proof. intros Ha Hb. by rewrite str_split_app, str_split_no_sep. Qed.

(** X12: for an output name made of a filter kind and a variable kind
    joined by one underscore (and not one of the two likelihood names), the
    expected shape depends on the variable kind alone: (n, m) for states,
    (n, m, m) for covs, and no shape at all, without any error, for every
    other variable kind. *)
Theorem get_expected_shape_by_kind filter_type variable p m r n :
  str_count underscore filter_type = 0%nat →
  str_count underscore variable = 0%nat →
  filter_type +:+ String underscore variable ≠ "log_likelihood" →
  filter_type +:+ String underscore variable ≠ "ll_obs" →
  get_expected_shape (filter_type +:+ String underscore variable) p m r n
  = inr (if bool_decide (variable = "states") then Some [n; m]
         else if bool_decide (variable = "covs") then Some [n; m; m]
         else None).
Proof.
  intros Hf Hv Hlog Hll. unfold get_expected_shape.
  rewrite !bool_decide_eq_false_2 by done.
  rewrite str_split_two by done.
  by repeat case_bool_decide.
Qed.

Lemma get_expected_shape_by_kind_witness :
  get_expected_shape ("smoothed" +:+ String underscore "covs") 1 2 1 10
  = inr (if bool_decide ("covs" = "states") then Some [10; 2]
         else if bool_decide ("covs" = "covs") then Some [10; 2; 2]
         else None).
Proof.
  apply (get_expected_shape_by_kind "smoothed" "covs" 1 2 1 10);
    [reflexivity | reflexivity | discriminate | discriminate].
Defined.

(** X13: apart from the two likelihood names, [get_expected_shape] raises
    exactly on the names that do not hold exactly one underscore, and what
    it raises is the value error of the failed unpacking. *)
Theorem get_expected_shape_raises_iff name p m r n :
  name ≠ "log_likelihood" →
  name ≠ "ll_obs" →
  ((∃ e, get_expected_shape name p m r n = inl e)
   ↔ str_count underscore name ≠ 1%nat)
  ∧ (∀ e, get_expected_shape name p m r n = inl e →
          e = ValueError (not_enough_values_message 1)
          ∨ e = ValueError too_many_values_message).
Proof.
  intros Hlog Hll. unfold get_expected_shape.
  rewrite !bool_decide_eq_false_2 by done.
  pose proof (str_split_length underscore name) as Hlen.
  destruct (str_split underscore name) as [|a [|b [|c l]]]; simpl in Hlen.
  - lia.
  - split; [split; [intros _; lia | eauto] | intros e [= <-]; by left].
  - assert (str_count underscore name = 1%nat) as -> by lia.
    split; [split; [| done] | ].
    + intros [e He]. by repeat case_bool_decide.
    + intros e He. by repeat case_bool_decide.
  - split; [split; [intros _; lia | eauto] | intros e [= <-]; by right].
Qed.

Lemma get_expected_shape_raises_iff_witness :
  ((∃ e, get_expected_shape "filtered" 1 2 1 10 = inl e)
   ↔ str_count underscore "filtered" ≠ 1%nat)
  ∧ (∀ e, get_expected_shape "filtered" 1 2 1 10 = inl e →
          e = ValueError (not_enough_values_message 1)
          ∨ e = ValueError too_many_values_message).
Proof.
  apply (get_expected_shape_raises_iff "filtered" 1 2 1 10); discriminate.
Defined.

(** ** Sorting the fitted parameters *)

Lemma sort_param_list_key d name x K l0 :
  K ≠ "sigma_state" →
  d !! K = Some (ParamList l0) →
  sort_param d (name, x) !! K
  = Some (ParamList (if bool_decide (param_key name = K)
                     then l0 ++ [x] else l0)).
Proof.
  intros HK Hd. unfold sort_param, param_key, dict_append.
  repeat (destruct (String.prefix _ name));
    first
      [ rewrite lookup_alter; case_decide; case_bool_decide; simplify_eq;
        by rewrite Hd
      | rewrite lookup_insert_ne by done;
        by rewrite bool_decide_eq_false_2 ].
Qed.

Lemma sort_param_sigma d name x :
  sort_param d (name, x) !! "sigma_state"
  = if bool_decide (param_key name = "sigma_state")
    then Some (ParamScalar x) else d !! "sigma_state".
Proof.
  unfold sort_param, param_key, dict_append.
  repeat (destruct (String.prefix _ name));
    first [ by rewrite lookup_alter_ne | by rewrite lookup_insert_eq ].
Qed.

Lemma fitted_with_cons test name x l :
  fitted_with test ((name, x) :: l)
  = if test name then x :: fitted_with test l else fitted_with test l.
Proof.
  unfold fitted_with. rewrite filter_cons. simpl.
  destruct (test name); by case_decide.
Qed.

Lemma foldl_sort_param_list_key l d K l0 :
  K ≠ "sigma_state" →
  d !! K = Some (ParamList l0) →
  foldl sort_param d l !! K
  = Some (ParamList
            (l0 ++ fitted_with (λ name, bool_decide (param_key name = K)) l)).
Proof.
  intros HK. revert d l0. induction l as [|[name x] l IH]; intros d l0 Hd.
  - simpl. by rewrite app_nil_r.
  - cbn [foldl]. rewrite (IH _ _ (sort_param_list_key d name x K l0 HK Hd)).
    rewrite fitted_with_cons. case_bool_decide; [| done].
    by rewrite <- app_assoc.
Qed.

Lemma foldl_sort_param_sigma l d :
  foldl sort_param d l !! "sigma_state"
  = match last (fitted_with
                  (λ name, bool_decide (param_key name = "sigma_state")) l) with
    | Some x => Some (ParamScalar x)
    | None => d !! "sigma_state"
    end.
Proof.
  revert d. induction l as [|[name x] l IH]; intros d; [done |].
  cbn [foldl]. rewrite IH, sort_param_sigma, fitted_with_cons.
  case_bool_decide; [| done].
  destruct (fitted_with _ l) as [|y l'] eqn:Hl; [done |].
  rewrite last_cons_cons.
  destruct (last (y :: l')) eqn:Hlast; [done |].
  by apply last_None in Hlast.
Qed.

Lemma prefix_cons_inv a s1 s2 :
  String.prefix (String a s1) s2 = true →
  ∃ s2', s2 = String a s2' ∧ String.prefix s1 s2' = true.
Proof.
  destruct s2 as [|b s2]; simpl; [discriminate |].
  destruct (Ascii.ascii_dec a b) as [<-|]; [eauto | discriminate].
Qed.

Lemma param_key_tests name :
  bool_decide (param_key name = "seasonal_ar_params") = String.prefix "ar.S" name
  ∧ bool_decide (param_key name = "seasonal_ma_params")
    = String.prefix "ma.S" name
  ∧ bool_decide (param_key name = "ar_params")
    = String.prefix "ar." name && negb (String.prefix "ar.S" name)
  ∧ bool_decide (param_key name = "ma_params")
    = String.prefix "ma." name && negb (String.prefix "ma.S" name)
  ∧ bool_decide (param_key name = "sigma_state")
    = negb (String.prefix "ar." name) && negb (String.prefix "ma." name).
Proof.
  unfold param_key.
  destruct (String.prefix "ar.S" name) eqn:Hsar.
  { apply prefix_cons_inv in Hsar as (s1 & -> & Hsar).
    apply prefix_cons_inv in Hsar as (s2 & -> & Hsar).
    apply prefix_cons_inv in Hsar as (s3 & -> & Hsar).
    by destruct s3. }
  destruct (String.prefix "ma.S" name) eqn:Hsma.
  { apply prefix_cons_inv in Hsma as (s1 & -> & Hsma).
    apply prefix_cons_inv in Hsma as (s2 & -> & Hsma).
    apply prefix_cons_inv in Hsma as (s3 & -> & Hsma).
    by destruct s3. }
  destruct (String.prefix "ar." name) eqn:Har.
  { apply prefix_cons_inv in Har as (s1 & -> & Har).
    apply prefix_cons_inv in Har as (s2 & -> & Har).
    apply prefix_cons_inv in Har as (s3 & -> & Har).
    done. }
  destruct (String.prefix "ma." name) eqn:Hma; done.
Qed.

Lemma fitted_with_ext test test' l :
  (∀ name, test name = test' name) →
  fitted_with test l = fitted_with test' l.
Proof.
  intros Hext. induction l as [|[name x] l IH]; [done |].
  by rewrite !fitted_with_cons, Hext, IH.
Qed.

Lemma filter_kept_list (d : gmap string param_value) K l :
  d !! K = Some (ParamList l) →
  filter (λ kv, kept_param kv.2 = true) d !! K = list_entry l.
Proof.
  intros Hd. rewrite map_lookup_filter, Hd. by destruct l.
Qed.

(** X14: the four parameter lists that [make_stationary_params] returns.
    Each holds, in fit order, the fitted values whose names carry its
    prefix: ["ar.S"] for the seasonal AR list, ["ma.S"] for the seasonal MA
    list, ["ar."] but not ["ar.S"] for the AR list, ["ma."] but not
    ["ma.S"] for the MA list; a list with no such value is left out of the
    result. *)
Theorem make_stationary_params_lists
    Data sarimax_fit (data : Data) p d q P D Q S :
  make_stationary_params Data sarimax_fit data p d q P D Q S
    !! "seasonal_ar_params"
  = list_entry
      (fitted_with (String.prefix "ar.S")
         (zip (sarimax_fit data (p, d, q) (P, D, Q, S)).1
              (sarimax_fit data (p, d, q) (P, D, Q, S)).2))
  ∧ make_stationary_params Data sarimax_fit data p d q P D Q S
      !! "seasonal_ma_params"
    = list_entry
        (fitted_with (String.prefix "ma.S")
           (zip (sarimax_fit data (p, d, q) (P, D, Q, S)).1
                (sarimax_fit data (p, d, q) (P, D, Q, S)).2))
  ∧ make_stationary_params Data sarimax_fit data p d q P D Q S !! "ar_params"
    = list_entry
        (fitted_with
           (λ name, String.prefix "ar." name && negb (String.prefix "ar.S" name))
           (zip (sarimax_fit data (p, d, q) (P, D, Q, S)).1
                (sarimax_fit data (p, d, q) (P, D, Q, S)).2))
  ∧ make_stationary_params Data sarimax_fit data p d q P D Q S !! "ma_params"
    = list_entry
        (fitted_with
           (λ name, String.prefix "ma." name && negb (String.prefix "ma.S" name))
           (zip (sarimax_fit data (p, d, q) (P, D, Q, S)).1
                (sarimax_fit data (p, d, q) (P, D, Q, S)).2)).
Proof.
  unfold make_stationary_params.
  set (fitted := zip _ _).
  repeat split.
  - erewrite filter_kept_list
      by (by apply (foldl_sort_param_list_key fitted _ "seasonal_ar_params" [])).
    f_equal. apply fitted_with_ext. intros name. apply param_key_tests.
  - erewrite filter_kept_list
      by (by apply (foldl_sort_param_list_key fitted _ "seasonal_ma_params" [])).
    f_equal. apply fitted_with_ext. intros name. apply param_key_tests.
  - erewrite filter_kept_list
      by (by apply (foldl_sort_param_list_key fitted _ "ar_params" [])).
    f_equal. apply fitted_with_ext. intros name. apply param_key_tests.
  - erewrite filter_kept_list
      by (by apply (foldl_sort_param_list_key fitted _ "ma_params" [])).
    f_equal. apply fitted_with_ext. intros name. apply param_key_tests.
Qed.

(** X15: of the fitted values whose names start neither with ["ar."] nor
    with ["ma."], [make_stationary_params] keeps the last one only, under
    ["sigma_state"]; when there is none the key is absent. *)
Theorem make_stationary_params_sigma
    Data sarimax_fit (data : Data) p d q P D Q S :
  make_stationary_params Data sarimax_fit data p d q P D Q S !! "sigma_state"
  = ParamScalar
    <$> last (fitted_with
                (λ name, negb (String.prefix "ar." name)
                         && negb (String.prefix "ma." name))
                (zip (sarimax_fit data (p, d, q) (P, D, Q, S)).1
                     (sarimax_fit data (p, d, q) (P, D, Q, S)).2)).
Proof.
  unfold make_stationary_params.
  set (fitted := zip _ _).
  rewrite map_lookup_filter, foldl_sort_param_sigma.
  rewrite (fitted_with_ext _
             (λ name, negb (String.prefix "ar." name)
                      && negb (String.prefix "ma." name)))
    by (intros name; apply param_key_tests).
  by destruct (last _).
Qed.

(** ** Deleting random variables *)

Lemma NoDup_fmap_eq {A B} (f : A → B) (l : list A) x y :
  NoDup (f <$> l) → x ∈ l → y ∈ l → f x = f y → x = y.
Proof.
  intros Hnd [i Hi]%list_elem_of_lookup [j Hj]%list_elem_of_lookup Hf.
  assert (i = j) as ->; [| congruence].
  apply (NoDup_lookup (f <$> l) i j (f x)); [done | |].
  - by rewrite list_lookup_fmap, Hi.
  - by rewrite list_lookup_fmap, Hj, Hf.
Qed.

Lemma filter_ext_in {A} (P Q : A → Prop)
    `{!∀ x, Decision (P x), !∀ x, Decision (Q x)} (l : list A) :
  (∀ x, x ∈ l → P x ↔ Q x) → filter P l = filter Q l.
Proof.
  induction l as [|a l IH]; intros Hext; [done |].
  rewrite !filter_cons, IH by (intros x Hx; apply Hext; by right).
  apply decide_ext, Hext. by left.
Qed.

Lemma filter_all {A} (P : A → Prop) `{!∀ x, Decision (P x)} (l : list A) :
  (∀ x, x ∈ l → P x) → filter P l = l.
Proof.
  induction l as [|a l IH]; intros Hall; [done |].
  rewrite filter_cons_True by (apply Hall; by left).
  f_equal. apply IH. intros x Hx. apply Hall. by right.
Qed.

Lemma remove_first_NoDup (x : variable) l :
  NoDup l → x ∈ l → remove_first x l = Some (filter (λ y, y ≠ x) l).
Proof.
  induction 1 as [|y l Hy Hnd IH]; [by intros ?%elem_of_nil |].
  intros Hin. simpl. case_bool_decide as Hyx.
  - subst y. rewrite filter_cons_False by (by intros ?).
    f_equal. symmetry. apply filter_all. by intros z Hz ->.
  - apply elem_of_cons in Hin as [-> | Hin]; [done |].
    rewrite IH by done. simpl. by rewrite filter_cons_True.
Qed.

Lemma list_index_unique (S : list variable) rv :
  NoDup (var_name <$> S) → rv ∈ S →
  ∃ i, list_find (λ y, y = var_name rv) (var_name <$> S)
       = Some (i, var_name rv)
       ∧ S !! i = Some rv.
Proof.
  intros Hnd Hin.
  destruct (list_find (λ y, y = var_name rv) (var_name <$> S))
    as [[i y]|] eqn:Hfind.
  - apply list_find_Some in Hfind as (Hi & -> & _).
    exists i. split; [done |].
    rewrite list_lookup_fmap in Hi.
    destruct (S !! i) as [rv'|] eqn:Hrv'; [| done]. simpl in Hi.
    injection Hi as Hname. f_equal.
    apply (NoDup_fmap_eq var_name S); [done | | done | done].
    by eapply list_elem_of_lookup_2.
  - apply list_find_None in Hfind. rewrite Forall_forall in Hfind.
    exfalso. apply (Hfind (var_name rv)); [| done].
    apply list_elem_of_fmap. eauto.
Qed.

Lemma filter_name_as_var (l : list variable) rv :
  (∀ v, v ∈ l → var_name v = var_name rv → v = rv) →
  filter (λ v, v ≠ rv) l = filter (λ v, var_name v ∉ [var_name rv]) l.
Proof.
  intros Huniq. apply filter_ext_in. intros v Hv.
  rewrite list_elem_of_singleton. split.
  - intros Hne Hname. by apply Hne, Huniq.
  - by intros Hname ->.
Qed.

Lemma filter_name_absent (l : list variable) name :
  (∀ v, v ∈ l → var_name v ≠ name) →
  l = filter (λ v, var_name v ∉ [name]) l.
Proof.
  intros Habs. symmetry. apply filter_all. intros v Hv.
  rewrite list_elem_of_singleton. by apply Habs.
Qed.

Lemma mut_bind_inr {A B} (c : mut A) (k : A → mut B) m m' a :
  c m = (m', inr a) → mut_bind c k m = k a m'.
Proof. unfold mut_bind. by intros ->. Qed.

Lemma mut_bind_inl {A B} (c : mut A) (k : A → mut B) m m' e :
  c m = (m', inl e) → mut_bind c k m = (m', inl e).
Proof. unfold mut_bind. by intros ->. Qed.

Lemma dict_pop_Some {K V} `{Countable K} (get : ModelVars → gmap K V) set
    key err m v :
  get m !! key = Some v →
  dict_pop get set key err m = (set (delete key) m, inr v).
Proof. unfold dict_pop. by intros ->. Qed.

Lemma dict_pop_None {K V} `{Countable K} (get : ModelVars → gmap K V) set
    key err m :
  get m !! key = None →
  dict_pop get set key err m = (m, inl err).
Proof. unfold dict_pop. by intros ->. Qed.

Lemma dict_discard_dims name err m :
  dict_discard named_vars_to_dims set_named_vars_to_dims name err m
  = (set_named_vars_to_dims (delete name) m, inr tt).
Proof.
  unfold dict_discard, mut_bind, mut_read, dict_pop.
  destruct (named_vars_to_dims m !! name) as [dims|] eqn:Hdims.
  - rewrite bool_decide_eq_true_2 by eauto. cbv beta. by rewrite Hdims.
  - rewrite bool_decide_eq_false_2 by (by intros [? ?]).
    unfold mut_ret. f_equal. destruct m. unfold set_named_vars_to_dims.
    simpl in *. f_equal. by rewrite delete_id.
Qed.

Lemma list_remove_Some get set x m l :
  remove_first x (get m) = Some l →
  list_remove get set x m = (set (λ _, l) m, inr tt).
Proof. unfold list_remove. by intros ->. Qed.

Lemma lookup_delete_cond {K V} `{Countable K} (d : gmap K V) key k
    (P : Prop) `{Decision P} :
  (P ↔ k = key) →
  delete key d !! k = if bool_decide P then None else d !! k.
Proof.
  intros HP. rewrite lookup_delete.
  case_decide as Hd; case_bool_decide as Hb; try done.
  - exfalso. by apply Hb, HP.
  - exfalso. apply HP in Hb. by subst.
Qed.

Lemma lookup_delete_names {K V} `{Countable K} (d : gmap K V) key k :
  delete key d !! k = if bool_decide (k ∈ [key]) then None else d !! k.
Proof.
  rewrite lookup_delete. case_decide; case_bool_decide; try done.
  - subst. exfalso. by apply H1, list_elem_of_singleton.
  - by apply list_elem_of_singleton in H1.
Qed.

(** The lists of a well-formed model hold no variable twice and are
    pairwise disjoint. *)
Lemma model_vars_wf_lists m :
  model_vars_wf m →
  NoDup (free_RVs m) ∧ NoDup (observed_RVs m) ∧ NoDup (deterministics m)
  ∧ (∀ v, v ∈ free_RVs m → v ∉ observed_RVs m)
  ∧ (∀ v, v ∈ basic_RVs m → v ∉ deterministics m).
Proof.
  intros (Hnd & _). apply NoDup_fmap_1 in Hnd. unfold all_rvs in Hnd.
  apply NoDup_app in Hnd as (Hb & Hbd & Hd). unfold basic_RVs in *.
  apply NoDup_app in Hb as (Hf & Hfo & Ho). done.
Qed.

Lemma delete_rv_step S m rv :
  model_vars_wf m →
  NoDup (var_name <$> S) →
  (∀ v, v ∈ all_rvs m → v ∈ S) →
  rv ∈ all_rvs m →
  ∃ m', delete_rv S (var_name <$> S) (var_name rv) m = (m', inr tt)
        ∧ deleted [var_name rv] m m'.
Proof.
  intros Hwf HndS Hsub Hrv.
  pose proof (model_vars_wf_lists m Hwf) as (Hndf & Hndo & Hndd & Hfo & Hbd).
  destruct Hwf as (Hnd & Hnamed & Hbasic & Hinv & Hinit).
  destruct (list_index_unique S rv HndS (Hsub _ Hrv)) as (i & Hfind & Hi).
  assert (∀ v, v ∈ all_rvs m → var_name v = var_name rv → v = rv) as Huniq.
  { intros v Hv Hname. by apply (NoDup_fmap_eq var_name (all_rvs m)). }
  assert (∀ v, v ∈ all_rvs m → var_name v ∈ [var_name rv] ↔ v = rv) as Hiff.
  { intros v Hv. rewrite list_elem_of_singleton. split; [by apply Huniq |].
    by intros ->. }
  unfold delete_rv.
  rewrite bool_decide_eq_true_2
    by (apply list_elem_of_fmap; exists rv; split; [done | by apply Hsub]).
  rewrite (mut_bind_inr _ _ m m tt) by done.
  unfold list_index. rewrite Hfind.
  rewrite (mut_bind_inr _ _ m m i) by done.
  unfold list_item. rewrite Hi.
  rewrite (mut_bind_inr _ _ m m rv) by done.
  erewrite mut_bind_inr by (by apply dict_pop_Some, Hnamed).
  erewrite mut_bind_inr by apply dict_discard_dims.
  erewrite mut_bind_inr by (unfold mut_read; reflexivity).
  cbn [deterministics set_named_vars_to_dims set_named_vars].
  destruct (decide (rv ∈ deterministics m)) as [Hdet | Hdet].
  - rewrite bool_decide_eq_true_2 by done.
    erewrite list_remove_Some by (by apply remove_first_NoDup).
    eexists. split; [reflexivity |].
    assert (∀ v, v ∈ basic_RVs m → var_name v ≠ var_name rv) as Hnot.
    { intros v Hv Hname. apply (Hbd v Hv).
      rewrite (Huniq v); [done | | done].
      unfold all_rvs. apply elem_of_app. by left. }
    unfold deleted. cbn.
    split; [apply filter_name_absent; intros v Hv; apply Hnot;
            unfold basic_RVs; apply elem_of_app; by left |].
    split; [apply filter_name_absent; intros v Hv; apply Hnot;
            unfold basic_RVs; apply elem_of_app; by right |].
    split.
    { apply filter_name_as_var. intros v Hv. apply Huniq.
      unfold all_rvs. apply elem_of_app. by right. }
    split; [intros k; apply lookup_delete_names |].
    split; [intros k; apply lookup_delete_names |].
    assert (∀ v, ¬ (var_name v ∈ [var_name rv] ∧ v ∈ basic_RVs m)) as Hcb.
    { intros v [Hn%list_elem_of_singleton Hb]. by apply (Hnot v). }
    assert (∀ v, ¬ (var_name v ∈ [var_name rv] ∧ v ∈ free_RVs m)) as Hcf.
    { intros v [Hn Hf]. apply (Hcb v). split; [done |].
      unfold basic_RVs. apply elem_of_app. by left. }
    split; [intros v; by rewrite bool_decide_eq_false_2 |].
    split.
    { intros val. destruct (values_to_rvs m !! val); [| done].
      by rewrite bool_decide_eq_false_2. }
    split; intros v; by rewrite bool_decide_eq_false_2.
  - assert (rv ∈ basic_RVs m) as Hb.
    { unfold all_rvs in Hrv. apply elem_of_app in Hrv as [?|?]; done. }
    assert (∀ v, (var_name v ∈ [var_name rv] ∧ v ∈ basic_RVs m) ↔ v = rv)
      as Hcb.
    { intros v. split; [| by intros ->; split;
                              [apply list_elem_of_singleton |]].
      intros [Hn Hv]. apply Hiff; [| done].
      unfold all_rvs. apply elem_of_app. by left. }
    rewrite bool_decide_eq_false_2 by done.
    destruct (Hbasic rv Hb) as (value & Hval & [tr Htr]).
    erewrite mut_bind_inr by (by apply dict_pop_Some).
    erewrite mut_bind_inr by (apply dict_pop_Some; cbn; by apply Hinv).
    erewrite mut_bind_inr by (by apply dict_pop_Some).
    erewrite mut_bind_inr by (unfold mut_read; reflexivity).
    cbn [free_RVs set_named_vars_to_dims set_named_vars set_rvs_to_values
         set_values_to_rvs set_rvs_to_transforms].
    assert (∀ val, delete value (values_to_rvs m) !! val
                   = match values_to_rvs m !! val with
                     | Some rv0 =>
                         if bool_decide (var_name rv0 ∈ [var_name rv]
                                         ∧ rv0 ∈ basic_RVs m)
                         then None else Some rv0
                     | None => None
                     end) as Hvals.
    { intros val. rewrite lookup_delete. case_decide as Hv.
      - subst val. rewrite (proj1 (Hinv rv value) Hval).
        by rewrite bool_decide_eq_true_2 by (by apply Hcb).
      - destruct (values_to_rvs m !! val) as [r|] eqn:Hr; [| done].
        rewrite bool_decide_eq_false_2; [done |].
        intros ->%Hcb. apply Hinv in Hr. congruence. }
    destruct (decide (rv ∈ free_RVs m)) as [Hfree | Hfree].
    + rewrite bool_decide_eq_true_2 by done.
      destruct (Hinit rv Hfree) as [iv Hiv].
      erewrite mut_bind_inr
        by (by apply list_remove_Some, remove_first_NoDup).
      erewrite mut_bind_inr by (by apply dict_pop_Some).
      eexists. split; [reflexivity |].
      unfold deleted. cbn.
      split.
      { apply filter_name_as_var. intros v Hv. apply Huniq.
        unfold all_rvs, basic_RVs. rewrite !elem_of_app. auto. }
      split.
      { apply filter_name_absent. intros v Hv Hname.
        apply (Hfo rv Hfree). rewrite <- (Huniq v); [done | | done].
        unfold all_rvs, basic_RVs. rewrite !elem_of_app. auto. }
      split.
      { apply filter_name_absent. intros v Hv Hname.
        apply (Hbd rv Hb). rewrite <- (Huniq v); [done | | done].
        unfold all_rvs. rewrite !elem_of_app. auto. }
      split; [intros k; apply lookup_delete_names |].
      split; [intros k; apply lookup_delete_names |].
      split; [intros v; by apply lookup_delete_cond |].
      split; [done |].
      split; [intros v; by apply lookup_delete_cond |].
      intros v. apply lookup_delete_cond. split.
      * intros [Hn Hv]. apply Hcb. split; [done |].
        unfold basic_RVs. apply elem_of_app. by left.
      * intros ->. split; [by apply list_elem_of_singleton | done].
    + assert (rv ∈ observed_RVs m) as Hobs.
      { unfold basic_RVs in Hb. apply elem_of_app in Hb as [?|?]; done. }
      rewrite bool_decide_eq_false_2 by done.
      erewrite list_remove_Some by (by apply remove_first_NoDup).
      eexists. split; [reflexivity |].
      unfold deleted. cbn.
      split.
      { apply filter_name_absent. intros v Hv Hname. apply Hfree.
        rewrite <- (Huniq v); [done | | done].
        unfold all_rvs, basic_RVs. rewrite !elem_of_app. auto. }
      split.
      { apply filter_name_as_var. intros v Hv. apply Huniq.
        unfold all_rvs, basic_RVs. rewrite !elem_of_app. auto. }
      split.
      { apply filter_name_absent. intros v Hv Hname.
        apply (Hbd rv Hb). rewrite <- (Huniq v); [done | | done].
        unfold all_rvs. rewrite !elem_of_app. auto. }
      split; [intros k; apply lookup_delete_names |].
      split; [intros k; apply lookup_delete_names |].
      split; [intros v; by apply lookup_delete_cond |].
      split; [done |].
      split; [intros v; by apply lookup_delete_cond |].
      intros v. rewrite bool_decide_eq_false_2; [done |].
      intros [Hn Hv]. apply Hfree.
      rewrite <- (proj1 (Hcb v)); [done |]. split; [done |].
      unfold basic_RVs. apply elem_of_app. by left.
Qed.

Lemma NoDup_fmap_filter {A B} (f : A → B) (P : A → Prop)
    `{!∀ x, Decision (P x)} (l : list A) :
  NoDup (f <$> l) → NoDup (f <$> filter P l).
Proof.
  induction l as [|a l IH]; [done |]. rewrite fmap_cons, NoDup_cons.
  intros [Ha Hnd]. rewrite filter_cons. case_decide; [| by apply IH].
  rewrite fmap_cons, NoDup_cons. split; [| by apply IH].
  intros (x & Hfx & Hx%list_elem_of_filter)%list_elem_of_fmap.
  apply Ha, list_elem_of_fmap. exists x. tauto.
Qed.

Lemma deleted_all_rvs names m m' :
  deleted names m m' →
  all_rvs m' = filter (λ v, var_name v ∉ names) (all_rvs m)
  ∧ basic_RVs m' = filter (λ v, var_name v ∉ names) (basic_RVs m).
Proof.
  intros (Hf & Ho & Hd & _). unfold all_rvs, basic_RVs.
  by rewrite !filter_app, Hf, Ho, Hd.
Qed.

(** Deleting variables from a well-formed model leaves a well-formed
    model. *)
Lemma deleted_wf names m m' :
  model_vars_wf m → deleted names m m' → model_vars_wf m'.
Proof.
  intros (Hnd & Hnamed & Hbasic & Hinv & Hinit) Hdel.
  pose proof (deleted_all_rvs names m m' Hdel) as [Hall Hbas].
  destruct Hdel as (Hf & Ho & Hd & Hnv & Hdims & Hr2v & Hv2r & Htr & Hiv).
  split; [| split; [| split; [| split]]].
  - rewrite Hall. by apply NoDup_fmap_filter.
  - intros rv. rewrite Hall, list_elem_of_filter. intros [Hname Hrv].
    rewrite Hnv, bool_decide_eq_false_2 by done. by apply Hnamed.
  - intros rv. rewrite Hbas, list_elem_of_filter. intros [Hname Hrv].
    rewrite Hr2v, Htr, !bool_decide_eq_false_2 by (by intros [? _]).
    by apply Hbasic.
  - intros rv value. rewrite Hr2v, Hv2r. split.
    + case_bool_decide; [done |]. intros Hval%Hinv. rewrite Hval.
      by rewrite bool_decide_eq_false_2.
    + destruct (values_to_rvs m !! value) as [r|] eqn:Hr; [| done].
      case_bool_decide as Hc; [done |]. intros [= ->].
      rewrite bool_decide_eq_false_2 by done. by apply Hinv.
  - intros rv. rewrite Hf, list_elem_of_filter. intros [Hname Hrv].
    rewrite Hiv, bool_decide_eq_false_2 by (by intros [? _]).
    by apply Hinit.
Qed.

(** Deleting one name and then further names deletes them all. *)
Lemma deleted_cons name names m m1 m2 :
  deleted [name] m m1 → deleted names m1 m2 → deleted (name :: names) m m2.
Proof.
  intros Hd1 Hd2.
  pose proof (deleted_all_rvs [name] m m1 Hd1) as [_ Hbas1].
  destruct Hd1 as (Hf1 & Ho1 & Hdt1 & Hnv1 & Hdims1 & Hr2v1 & Hv2r1 & Htr1 & Hiv1).
  destruct Hd2 as (Hf2 & Ho2 & Hdt2 & Hnv2 & Hdims2 & Hr2v2 & Hv2r2 & Htr2 & Hiv2).
  assert (∀ l : list variable,
            filter (λ v, var_name v ∉ names)
              (filter (λ v, var_name v ∉ [name]) l)
            = filter (λ v, var_name v ∉ (name :: names)) l) as Hfilter.
  { intros l. rewrite list_filter_filter. apply list_filter_iff. intros v.
    rewrite list_elem_of_singleton, elem_of_cons. tauto. }
  assert (∀ {V} (d d1 d2 : gmap variable V) (l l1 : list variable),
            l1 = filter (λ v, var_name v ∉ [name]) l →
            (∀ rv, d1 !! rv = if bool_decide (var_name rv ∈ [name] ∧ rv ∈ l)
                              then None else d !! rv) →
            (∀ rv, d2 !! rv = if bool_decide (var_name rv ∈ names ∧ rv ∈ l1)
                              then None else d1 !! rv) →
            ∀ rv, d2 !! rv
                  = if bool_decide (var_name rv ∈ (name :: names) ∧ rv ∈ l)
                    then None else d !! rv) as Hmaps.
  { intros V d d1 d2 l l1 -> H1 H2 rv. rewrite H2, H1.
    repeat case_bool_decide; try done; exfalso;
      rewrite ?list_elem_of_filter, ?list_elem_of_singleton, ?elem_of_cons
        in *; tauto. }
  split; [by rewrite Hf2, Hf1 |].
  split; [by rewrite Ho2, Ho1 |].
  split; [by rewrite Hdt2, Hdt1 |].
  split.
  { intros k. rewrite Hnv2, Hnv1.
    repeat case_bool_decide; try done; exfalso;
      rewrite ?list_elem_of_singleton, ?elem_of_cons in *; tauto. }
  split.
  { intros k. rewrite Hdims2, Hdims1.
    repeat case_bool_decide; try done; exfalso;
      rewrite ?list_elem_of_singleton, ?elem_of_cons in *; tauto. }
  split; [by apply (Hmaps _ _ _ _ _ _ Hbas1 Hr2v1 Hr2v2) |].
  split.
  { intros value. rewrite Hv2r2, Hv2r1.
    destruct (values_to_rvs m !! value) as [r|]; [| done].
    rewrite Hbas1.
    repeat case_bool_decide; try done; exfalso;
      rewrite ?list_elem_of_filter, ?list_elem_of_singleton, ?elem_of_cons
        in *; tauto. }
  split; [by apply (Hmaps _ _ _ _ _ _ Hbas1 Htr1 Htr2) |].
  by apply (Hmaps _ _ _ _ _ _ Hf1 Hiv1 Hiv2).
Qed.

Lemma deleted_nil m : deleted [] m m.
Proof.
  assert (∀ l : list variable,
            l = filter (λ v, var_name v ∉ ([] : list string)) l) as Hl.
  { intros l. symmetry. apply filter_all. intros v _. apply not_elem_of_nil. }
  assert (∀ (v : variable) (Q : Prop),
            ¬ (var_name v ∈ ([] : list string) ∧ Q)) as Hc.
  { intros v Q [?%not_elem_of_nil _]. done. }
  unfold deleted.
  split; [apply Hl |]. split; [apply Hl |]. split; [apply Hl |].
  split; [intros k; by rewrite bool_decide_eq_false_2
                      by apply not_elem_of_nil |].
  split; [intros k; by rewrite bool_decide_eq_false_2
                      by apply not_elem_of_nil |].
  split; [intros rv; by rewrite bool_decide_eq_false_2 by apply Hc |].
  split.
  { intros value. destruct (values_to_rvs m !! value); [| done].
    by rewrite bool_decide_eq_false_2 by apply Hc. }
  split; intros rv; by rewrite bool_decide_eq_false_2 by apply Hc.
Qed.

(** The loop on a well-formed model, for names that are each listed once
    and each name a variable of the model. *)
Lemma delete_rvs_loop_deletes S rv_names m :
  model_vars_wf m →
  NoDup (var_name <$> S) →
  (∀ v, v ∈ all_rvs m → v ∈ S) →
  NoDup rv_names →
  (∀ name, name ∈ rv_names → name ∈ var_name <$> all_rvs m) →
  ∃ m', delete_rvs_loop S (var_name <$> S) rv_names m = (m', inr tt)
        ∧ deleted rv_names m m'.
Proof.
  revert m. induction rv_names as [|name rv_names IH];
    intros m Hwf HndS Hsub Hnd Hnames.
  { exists m. split; [done | apply deleted_nil]. }
  apply NoDup_cons in Hnd as [Hname Hnd].
  destruct (proj1 (list_elem_of_fmap _ _ _) (Hnames name ltac:(by left)))
    as (rv & Heq & Hrv).
  subst name.
  destruct (delete_rv_step S m rv Hwf HndS Hsub Hrv) as (m1 & Hstep & Hdel1).
  pose proof (deleted_wf _ _ _ Hwf Hdel1) as Hwf1.
  pose proof (deleted_all_rvs _ _ _ Hdel1) as [Hall1 _].
  destruct (IH m1) as (m2 & Hloop & Hdel2); try done.
  - intros v. rewrite Hall1, list_elem_of_filter. intros [_ Hv].
    by apply Hsub.
  - intros n Hn.
    destruct (proj1 (list_elem_of_fmap _ _ _) (Hnames n ltac:(by right)))
      as (v & Heq & Hv).
    subst n.
    apply list_elem_of_fmap. exists v. split; [done |].
    rewrite Hall1, list_elem_of_filter. split; [| done].
    rewrite list_elem_of_singleton. intros Heq. apply Hname.
    by rewrite <- Heq.
  - exists m2. split; [| by apply (deleted_cons _ _ m m1 m2)].
    cbn [delete_rvs_loop]. by rewrite (mut_bind_inr _ _ m m1 tt).
Qed.

Lemma delete_rvs_loop_app S N pre rest m :
  delete_rvs_loop S N (pre ++ rest) m
  = mut_bind (delete_rvs_loop S N pre) (λ _, delete_rvs_loop S N rest) m.
Proof.
  revert m. induction pre as [|name pre IH]; intros m; [done |].
  cbn [app delete_rvs_loop]. unfold mut_bind at 1.
  destruct (delete_rv S N name m) as [m1 [e | []]] eqn:Hstep.
  - unfold mut_bind at 1. cbn [delete_rvs_loop].
    by rewrite (mut_bind_inl _ _ m m1 e).
  - rewrite IH. unfold mut_bind at 1 2. cbn [delete_rvs_loop].
    by rewrite (mut_bind_inr _ _ m m1 tt).
Qed.

(** X16: on a well-formed model, deleting names that are each given once
    and each name a random variable or a deterministic of the model
    succeeds; afterwards the named variables are gone from the three
    variable lists and from every mapping, every other entry is as it was,
    and the model is well-formed again. *)
Theorem delete_rvs_from_model_deletes rv_names m :
  model_vars_wf m →
  NoDup rv_names →
  (∀ name, name ∈ rv_names → name ∈ var_name <$> all_rvs m) →
  ∃ m', delete_rvs_from_model rv_names m = (m', inr tt)
        ∧ deleted rv_names m m'
        ∧ model_vars_wf m'.
Proof.
  intros Hwf Hnd Hnames.
  destruct (delete_rvs_loop_deletes (all_rvs m) rv_names m)
    as (m' & Hloop & Hdel); try done; [apply Hwf |].
  exists m'. split; [done |]. split; [done |]. by apply (deleted_wf rv_names m).
Qed.

(** X17: a name that is no random variable and no deterministic of the
    model stops the deletion with the assertion error that lists the
    model's names; the names given before it stay deleted. *)
Theorem delete_rvs_from_model_unknown_name pre name post m :
  model_vars_wf m →
  NoDup pre →
  (∀ n, n ∈ pre → n ∈ var_name <$> all_rvs m) →
  name ∉ var_name <$> all_rvs m →
  ∃ m1, delete_rvs_from_model (pre ++ name :: post) m
        = (m1, inl (AssertionError name (var_name <$> all_rvs m)))
        ∧ deleted pre m m1.
Proof.
  intros Hwf Hnd Hnames Hname.
  destruct (delete_rvs_loop_deletes (all_rvs m) pre m)
    as (m1 & Hloop & Hdel); try done; [apply Hwf |].
  exists m1. split; [| done].
  unfold delete_rvs_from_model, mut_bind at 1, mut_read.
  fold (all_rvs m). rewrite delete_rvs_loop_app.
  rewrite (mut_bind_inr _ _ m m1 tt) by done.
  cbn [delete_rvs_loop]. apply mut_bind_inl. unfold delete_rv.
  apply mut_bind_inl. by rewrite bool_decide_eq_false_2.
Qed.

(** X18: a name given a second time stops the deletion with a key error
    on [named_vars]: the first deletion took the name out of it.  The names
    given before the repetition stay deleted. *)
Theorem delete_rvs_from_model_repeated_name pre name post m :
  model_vars_wf m →
  NoDup pre →
  (∀ n, n ∈ pre → n ∈ var_name <$> all_rvs m) →
  name ∈ pre →
  ∃ m1, delete_rvs_from_model (pre ++ name :: post) m
        = (m1, inl (KeyError_name name))
        ∧ deleted pre m m1.
Proof.
  intros Hwf Hnd Hnames Hname.
  destruct (delete_rvs_loop_deletes (all_rvs m) pre m)
    as (m1 & Hloop & Hdel); try done; [apply Hwf |].
  exists m1. split; [| done].
  unfold delete_rvs_from_model, mut_bind at 1, mut_read.
  fold (all_rvs m). rewrite delete_rvs_loop_app.
  rewrite (mut_bind_inr _ _ m m1 tt) by done.
  cbn [delete_rvs_loop]. apply mut_bind_inl. unfold delete_rv.
  destruct (proj1 (list_elem_of_fmap _ _ _) (Hnames name Hname))
    as (rv & Heq & Hrv).
  subst name.
  destruct (list_index_unique (all_rvs m) rv (proj1 Hwf) Hrv)
    as (i & Hfind & Hi).
  rewrite bool_decide_eq_true_2 by (apply list_elem_of_fmap; eauto).
  rewrite (mut_bind_inr _ _ m1 m1 tt) by done.
  unfold list_index. rewrite Hfind.
  rewrite (mut_bind_inr _ _ m1 m1 i) by done.
  unfold list_item. rewrite Hi.
  rewrite (mut_bind_inr _ _ m1 m1 rv) by done.
  apply mut_bind_inl, dict_pop_None.
  destruct Hdel as (_ & _ & _ & Hnv & _).
  by rewrite Hnv, bool_decide_eq_true_2.
Qed.

(** X19: what [get_data_dims] finds after a deletion: nothing for a tensor
    that carries a deleted name, and for every other data what it found
    before. *)
Theorem get_data_dims_after_delete rv_names m data :
  model_vars_wf m →
  NoDup rv_names →
  (∀ name, name ∈ rv_names → name ∈ var_name <$> all_rvs m) →
  ∃ m', delete_rvs_from_model rv_names m = (m', inr tt)
        ∧ get_data_dims data m'
          = match data with
            | TensorData t =>
                match tv_name t with
                | Some name =>
                    if bool_decide (name ∈ rv_names) then None
                    else get_data_dims data m
                | None => None
                end
            | _ => None
            end.
Proof.
  intros Hwf Hnd Hnames.
  destruct (delete_rvs_loop_deletes (all_rvs m) rv_names m)
    as (m' & Hloop & Hdel); try done; [apply Hwf |].
  exists m'. split; [done |].
  destruct Hdel as (_ & _ & _ & _ & Hdims & _).
  destruct data as [t | | |]; try done. simpl.
  destruct (tv_name t) as [name|]; [| done].
  rewrite Hdims. by repeat case_bool_decide.
Qed.

Lemma demo_model_wf : model_vars_wf demo_model.
Proof.
  unfold model_vars_wf, demo_model, all_rvs, basic_RVs. cbn.
  split; [apply (bool_decide_unpack _); vm_compute; exact I |].
  split.
  { intros rv Hrv. repeat (apply elem_of_cons in Hrv as [-> | Hrv]);
      [reflexivity .. | by apply elem_of_nil in Hrv]. }
  split.
  { intros rv Hrv. repeat (apply elem_of_cons in Hrv as [-> | Hrv]);
      [by eexists .. | by apply elem_of_nil in Hrv]. }
  split.
  { intros rv value. rewrite !lookup_insert_Some, !lookup_singleton_Some.
    split.
    - intros [[<- <-] | [_ [<- <-]]]; [by left | by right].
    - intros [[<- <-] | [_ [<- <-]]]; [by left | by right]. }
  intros rv Hrv. apply elem_of_cons in Hrv as [-> | Hrv];
    [by eexists | by apply elem_of_nil in Hrv].
Qed.

Lemma delete_rvs_from_model_deletes_witness :
  ∃ m', delete_rvs_from_model ["mu"; "y"] demo_model = (m', inr tt)
        ∧ deleted ["mu"; "y"] demo_model m'
        ∧ model_vars_wf m'.
Proof.
  apply (delete_rvs_from_model_deletes ["mu"; "y"] demo_model).
  - apply demo_model_wf.
  - apply (bool_decide_unpack _). vm_compute. exact I.
  - intros name Hname. apply (bool_decide_unpack _).
    repeat (apply elem_of_cons in Hname as [-> | Hname]);
      [vm_compute; exact I .. | by apply elem_of_nil in Hname].
Defined.

Lemma delete_rvs_from_model_unknown_name_witness :
  ∃ m1, delete_rvs_from_model (["x"] ++ "data" :: ["y"]) demo_model
        = (m1, inl (AssertionError "data" (var_name <$> all_rvs demo_model)))
        ∧ deleted ["x"] demo_model m1.
Proof.
  apply (delete_rvs_from_model_unknown_name ["x"] "data" ["y"] demo_model).
  - apply demo_model_wf.
  - apply (bool_decide_unpack _). vm_compute. exact I.
  - intros name Hname. apply (bool_decide_unpack _).
    repeat (apply elem_of_cons in Hname as [-> | Hname]);
      [vm_compute; exact I .. | by apply elem_of_nil in Hname].
  - apply (bool_decide_unpack _). vm_compute. exact I.
Defined.

Lemma delete_rvs_from_model_repeated_name_witness :
  ∃ m1, delete_rvs_from_model (["x"; "mu"] ++ "x" :: []) demo_model
        = (m1, inl (KeyError_name "x"))
        ∧ deleted ["x"; "mu"] demo_model m1.
Proof.
  apply (delete_rvs_from_model_repeated_name ["x"; "mu"] "x" [] demo_model).
  - apply demo_model_wf.
  - apply (bool_decide_unpack _). vm_compute. exact I.
  - intros name Hname. apply (bool_decide_unpack _).
    repeat (apply elem_of_cons in Hname as [-> | Hname]);
      [vm_compute; exact I .. | by apply elem_of_nil in Hname].
  - apply (bool_decide_unpack _). vm_compute. exact I.
Defined.

Lemma get_data_dims_after_delete_witness :
  ∃ m', delete_rvs_from_model ["y"] demo_model = (m', inr tt)
        ∧ get_data_dims
            (TensorData (mk_TensorVariable (Some "y") (inr [3; 1]%nat)
                           (inl (ValueError [])))) m'
          = if bool_decide ("y" ∈ ["y"]) then None
            else get_data_dims
                   (TensorData (mk_TensorVariable (Some "y") (inr [3; 1]%nat)
                                  (inl (ValueError [])))) demo_model.
Proof.
  apply (get_data_dims_after_delete ["y"] demo_model
           (TensorData (mk_TensorVariable (Some "y") (inr [3; 1]%nat)
                          (inl (ValueError []))))).
  - apply demo_model_wf.
  - apply (bool_decide_unpack _). vm_compute. exact I.
  - intros name Hname. apply (bool_decide_unpack _).
    repeat (apply elem_of_cons in Hname as [-> | Hname]);
      [vm_compute; exact I .. | by apply elem_of_nil in Hname].
Defined.

Example delete_rvs_demo :
  (delete_rvs_from_model ["y"] demo_model).1
  = mk_ModelVars
      {[ "x" := mk_variable 1 "x"; "mu" := mk_variable 3 "mu" ]}
      ∅
      [mk_variable 1 "x"] [] [mk_variable 3 "mu"]
      {[ mk_variable 1 "x" := mk_variable 4 "x_value" ]}
      {[ mk_variable 4 "x_value" := mk_variable 1 "x" ]}
      {[ mk_variable 1 "x" := Some "log" ]}
      {[ mk_variable 1 "x" := None ]}.
Proof. vm_compute. reflexivity. Qed.

(** ** The arrays handed to the filter tests *)

Lemma flat_map_rows_lookup {A B} (g : A → list B) (l : list A) cols i j :
  (∀ x, length (g x) = cols) → (j < cols)%nat →
  flat_map g l !! (i * cols + j)%nat = l !! i ≫= λ x, g x !! j.
Proof.
  intros Hlen Hj. revert i. induction l as [|x l IH]; intros i; [done |].
  simpl. destruct i as [|i]; simpl.
  - rewrite lookup_app_l by (rewrite Hlen; lia). done.
  - rewrite lookup_app_r by (rewrite Hlen; lia). rewrite Hlen.
    replace (cols + i * cols + j - cols)%nat with (i * cols + j)%nat by lia.
    apply IH.
Qed.

Lemma flat_map_rows_length {A B} (g : A → list B) (l : list A) cols :
  (∀ x, length (g x) = cols) →
  length (flat_map g l) = (length l * cols)%nat.
Proof.
  intros Hlen. induction l as [|x l IH]; [done |].
  simpl. rewrite length_app, Hlen, IH. lia.
Qed.

Lemma nd_tabulate_wf rows cols f : nd_wf (nd_tabulate rows cols f).
Proof.
  unfold nd_wf, nd_tabulate. simpl.
  rewrite (flat_map_rows_length _ _ cols)
    by (intros; by rewrite length_fmap, length_seq).
  rewrite length_seq. lia.
Qed.

Lemma nd_tabulate_cell rows cols f i j :
  nd_cell (nd_tabulate rows cols f) i j
  = if bool_decide (i < rows ∧ j < cols)%nat then Some (f i j) else None.
Proof.
  unfold nd_cell, nd_tabulate. simpl. case_bool_decide as Hij; [| done].
  destruct Hij as [Hi Hj].
  rewrite (flat_map_rows_lookup _ _ cols)
    by (done || (intros; by rewrite length_fmap, length_seq)).
  rewrite lookup_seq_lt by done. simpl.
  by rewrite list_lookup_fmap, lookup_seq_lt.
Qed.

Lemma nd_tabulate_buffer_default rows cols f i j :
  (i < rows)%nat → (j < cols)%nat →
  default 0%float (buffer (nd_tabulate rows cols f) !! (i * cols + j)%nat)
  = f i j.
Proof.
  intros Hi Hj.
  pose proof (nd_tabulate_cell rows cols f i j) as Hcell.
  unfold nd_cell in Hcell. simpl in Hcell.
  rewrite bool_decide_eq_true_2 in Hcell by done.
  simpl. by rewrite Hcell.
Qed.

Lemma make_test_inputs_returns rng_choice p m r n H_is_zero :
  p ≠ 0%nat → m ≠ 0%nat →
  make_test_inputs rng_choice p m r n None H_is_zero
  = inr (mk_TestInputs
           (mk_ndarray [n; p] (float_of_nat <$> seq 0 (n * p)))
           (np_zeros m) (np_eye m 0) (np_zeros m) (np_zeros p)
           (nd_tabulate m m
              (λ i j, if bool_decide (i = 0%nat)
                      then (1 / float_of_nat m)%float
                      else default 0%float
                             (buffer (np_eye m (-1)) !! (i * m + j)%nat)))
           (leading_rows (np_eye m 0) p)
           (leading_cols (np_eye m 0) r)
           (if H_is_zero then np_zeros2 p p else np_eye p 0)
           (np_eye r 0)).
Proof.
  intros Hp Hm. unfold make_test_inputs, arange_reshape, set_first_row.
  rewrite (bool_decide_eq_false_2 (p = 0%nat)) by done.
  rewrite Nat.Div0.mod_mul, Nat.div_mul by done.
  rewrite bool_decide_eq_true_2 by done. simpl.
  by rewrite !(bool_decide_eq_false_2 (m = 0%nat)) by done.
Qed.

(** X20: for at least one observed series and at least one state, and no
    missing rows asked for, [make_test_inputs] returns ten arrays of the
    shapes (n, p), (m), (m, m), (m), (p), (m, m), (min(p, m), m),
    (m, min(r, m)), (p, p) and (r, r), each holding as many cells as its
    shape says: the selection matrices Z and R are cut from the m by m
    identity, so they have p rows and r columns only up to m. *)
Theorem make_test_inputs_shapes rng_choice p m r n H_is_zero :
  p ≠ 0%nat → m ≠ 0%nat →
  ∃ ti,
    make_test_inputs rng_choice p m r n None H_is_zero = inr ti
    ∧ shape (ti_data ti) = [n; p]
    ∧ shape (ti_a0 ti) = [m]
    ∧ shape (ti_P0 ti) = [m; m]
    ∧ shape (ti_c ti) = [m]
    ∧ shape (ti_d ti) = [p]
    ∧ shape (ti_T ti) = [m; m]
    ∧ shape (ti_Z ti) = [(p `min` m)%nat; m]
    ∧ shape (ti_R ti) = [m; (r `min` m)%nat]
    ∧ shape (ti_H ti) = [p; p]
    ∧ shape (ti_Q ti) = [r; r]
    ∧ Forall nd_wf
        [ti_data ti; ti_a0 ti; ti_P0 ti; ti_c ti; ti_d ti; ti_T ti; ti_Z ti;
         ti_R ti; ti_H ti; ti_Q ti].
Proof.
  intros Hp Hm. eexists. split; [by apply make_test_inputs_returns |].
  cbn [ti_data ti_a0 ti_P0 ti_c ti_d ti_T ti_Z ti_R ti_H ti_Q].
  repeat (split; [by destruct H_is_zero |]).
  repeat apply Forall_cons_2; try apply Forall_nil_2;
    try apply nd_tabulate_wf.
  - unfold nd_wf. simpl. rewrite length_fmap, length_seq. lia.
  - unfold nd_wf. simpl. rewrite length_replicate. lia.
  - unfold nd_wf. simpl. rewrite length_replicate. lia.
  - unfold nd_wf. simpl. rewrite length_replicate. lia.
  - destruct H_is_zero; apply nd_tabulate_wf.
Qed.


Lemma make_test_inputs_shapes_witness :
  ∃ ti,
    make_test_inputs (λ _ _, inr []) 3 2 1 4 None false = inr ti
    ∧ shape (ti_data ti) = [4; 3]%nat
    ∧ shape (ti_a0 ti) = [2]%nat
    ∧ shape (ti_P0 ti) = [2; 2]%nat
    ∧ shape (ti_c ti) = [2]%nat
    ∧ shape (ti_d ti) = [3]%nat
    ∧ shape (ti_T ti) = [2; 2]%nat
    ∧ shape (ti_Z ti) = [(3 `min` 2)%nat; 2%nat]
    ∧ shape (ti_R ti) = [2%nat; (1 `min` 2)%nat]
    ∧ shape (ti_H ti) = [3; 3]%nat
    ∧ shape (ti_Q ti) = [1; 1]%nat
    ∧ Forall nd_wf
        [ti_data ti; ti_a0 ti; ti_P0 ti; ti_c ti; ti_d ti; ti_T ti; ti_Z ti;
         ti_R ti; ti_H ti; ti_Q ti].
Proof.
  apply (make_test_inputs_shapes (λ _ _, inr []) 3 2 1 4 false); lia.
Defined.

Lemma np_eye_buffer_default n k i j :
  (i < n)%nat → (j < n)%nat →
  default 0%float (buffer (np_eye n k) !! (i * n + j)%nat)
  = if bool_decide (Z.of_nat j = Z.of_nat i + k) then 1%float else 0%float.
Proof. intros Hi Hj. unfold np_eye. by rewrite nd_tabulate_buffer_default. Qed.

Lemma leading_rows_tabulate rows cols f p :
  leading_rows (nd_tabulate rows cols f) p
  = nd_tabulate (p `min` rows) cols
      (λ i j, default 0%float
                (buffer (nd_tabulate rows cols f) !! (i * cols + j)%nat)).
Proof. reflexivity. Qed.

Lemma leading_cols_tabulate rows cols f r :
  leading_cols (nd_tabulate rows cols f) r
  = nd_tabulate rows (r `min` cols)
      (λ i j, default 0%float
                (buffer (nd_tabulate rows cols f) !! (i * cols + j)%nat)).
Proof. reflexivity. Qed.

(** X21: what the arrays of [make_test_inputs] hold, for at least one
    observed series and one state and no missing rows asked for.  The data
    count upwards along the rows from zero; every cell of the first row of
    the transition matrix T is 1/m and below it T has ones exactly under the
    diagonal; the selection matrices Z and R have a one where row and column
    agree and zero elsewhere. *)
Theorem make_test_inputs_cells rng_choice p m r n H_is_zero :
  p ≠ 0%nat → m ≠ 0%nat →
  ∃ ti,
    make_test_inputs rng_choice p m r n None H_is_zero = inr ti
    ∧ (∀ i j, (i < n)%nat → (j < p)%nat →
         nd_cell (ti_data ti) i j = Some (float_of_nat (i * p + j)))
    ∧ (∀ j, (j < m)%nat →
         nd_cell (ti_T ti) 0 j = Some (1 / float_of_nat m)%float)
    ∧ (∀ i j, (0 < i < m)%nat → (j < m)%nat →
         nd_cell (ti_T ti) i j
         = Some (if bool_decide (j + 1 = i)%nat then 1%float else 0%float))
    ∧ (∀ i j, (i < p `min` m)%nat → (j < m)%nat →
         nd_cell (ti_Z ti) i j
         = Some (if bool_decide (i = j) then 1%float else 0%float))
    ∧ (∀ i j, (i < m)%nat → (j < r `min` m)%nat →
         nd_cell (ti_R ti) i j
         = Some (if bool_decide (i = j) then 1%float else 0%float)).
Proof.
  intros Hp Hm. eexists. split; [by apply make_test_inputs_returns |].
  cbn [ti_data ti_T ti_Z ti_R].
  split; [| split; [| split; [| split]]].
  - intros i j Hi Hj. unfold nd_cell. simpl.
    rewrite bool_decide_eq_true_2 by done.
    rewrite list_lookup_fmap, lookup_seq_lt by nia. done.
  - intros j Hj. rewrite nd_tabulate_cell.
    rewrite bool_decide_eq_true_2 by lia. done.
  - intros i j Hi Hj. rewrite nd_tabulate_cell.
    rewrite bool_decide_eq_true_2 by lia.
    rewrite (bool_decide_eq_false_2 (i = 0%nat)) by lia.
    rewrite np_eye_buffer_default by lia.
    f_equal. apply (f_equal (λ b : bool, if b then 1%float else 0%float)).
    apply bool_decide_ext. lia.
  - intros i j Hi Hj. unfold np_eye. rewrite leading_rows_tabulate.
    rewrite nd_tabulate_cell. rewrite bool_decide_eq_true_2 by lia.
    rewrite nd_tabulate_buffer_default by lia.
    f_equal. apply (f_equal (λ b : bool, if b then 1%float else 0%float)).
    apply bool_decide_ext. lia.
  - intros i j Hi Hj. unfold np_eye. rewrite leading_cols_tabulate.
    rewrite nd_tabulate_cell. rewrite bool_decide_eq_true_2 by lia.
    rewrite nd_tabulate_buffer_default by lia.
    f_equal. apply (f_equal (λ b : bool, if b then 1%float else 0%float)).
    apply bool_decide_ext. lia.
Qed.

Lemma make_test_inputs_cells_witness :
  ∃ ti,
    make_test_inputs (λ _ _, inr []) 3 2 1 4 None false = inr ti
    ∧ (∀ i j, (i < 4)%nat → (j < 3)%nat →
         nd_cell (ti_data ti) i j = Some (float_of_nat (i * 3 + j)))
    ∧ (∀ j, (j < 2)%nat →
         nd_cell (ti_T ti) 0 j = Some (1 / float_of_nat 2)%float)
    ∧ (∀ i j, (0 < i < 2)%nat → (j < 2)%nat →
         nd_cell (ti_T ti) i j
         = Some (if bool_decide (j + 1 = i)%nat then 1%float else 0%float))
    ∧ (∀ i j, (i < 3 `min` 2)%nat → (j < 2)%nat →
         nd_cell (ti_Z ti) i j
         = Some (if bool_decide (i = j) then 1%float else 0%float))
    ∧ (∀ i j, (i < 2)%nat → (j < 1 `min` 2)%nat →
         nd_cell (ti_R ti) i j
         = Some (if bool_decide (i = j) then 1%float else 0%float)).
Proof.
  apply (make_test_inputs_cells (λ _ _, inr []) 3 2 1 4 false); lia.
Defined.

Lemma make_test_inputs_no_series rng_choice m r n missing_data H_is_zero :
  ∃ msg, make_test_inputs rng_choice 0 m r n missing_data H_is_zero
         = inl (Raised (ValueError msg)).
Proof. eexists. unfold make_test_inputs, arange_reshape. simpl. done. Qed.

Lemma make_test_inputs_no_state rng_choice p r n H_is_zero :
  p ≠ 0%nat →
  make_test_inputs rng_choice p 0 r n None H_is_zero = inl ZeroDivisionError.
Proof.
  intros Hp. unfold make_test_inputs, arange_reshape.
  rewrite (bool_decide_eq_false_2 (p = 0%nat)) by done.
  rewrite Nat.Div0.mod_mul. rewrite bool_decide_eq_true_2 by done. done.
Qed.

(** X22: when no missing rows are asked for, [make_test_inputs] returns its
    arrays exactly when there is at least one observed series and at least
    one state.  Without an observed series the reshape of the data fails with
    a ValueError, whatever the other arguments; with one but without a state
    the division 1/m fails with a ZeroDivisionError. *)
Theorem make_test_inputs_returns_iff rng_choice p m r n H_is_zero :
  ((∃ ti, make_test_inputs rng_choice p m r n None H_is_zero = inr ti)
   ↔ p ≠ 0%nat ∧ m ≠ 0%nat)
  ∧ (p = 0%nat →
     ∀ missing_data, ∃ msg,
       make_test_inputs rng_choice p m r n missing_data H_is_zero
       = inl (Raised (ValueError msg)))
  ∧ (p ≠ 0%nat → m = 0%nat →
     make_test_inputs rng_choice p m r n None H_is_zero
     = inl ZeroDivisionError).
Proof.
  split; [| split].
  - split.
    + intros [ti Hti]. split.
      * intros ->.
        destruct (make_test_inputs_no_series rng_choice m r n None H_is_zero)
          as [msg Hmsg].
        congruence.
      * intros ->. destruct (decide (p = 0%nat)) as [-> | Hp].
        -- destruct (make_test_inputs_no_series rng_choice 0 r n None
                       H_is_zero) as [msg Hmsg].
           congruence.
        -- rewrite make_test_inputs_no_state in Hti by done. done.
    + intros [Hp Hm]. eexists. by apply make_test_inputs_returns.
  - intros -> missing_data. apply make_test_inputs_no_series.
  - intros Hp ->. by apply make_test_inputs_no_state.
Qed.
